(** * Authentication core of the patient-management application

    A shallow embedding of
    - [src/google-sso.service.ts]      (module [GoogleSso]),
    - [src/authenticate-user.middleware.ts] (module [SessionMiddleware]),
    - the GraphQL auth context decorators (module [AuthContext]),
    followed by the properties proved about them. *)

From Stdlib Require Import ZArith Ascii String List Bool.
From stdpp Require Import base option list gmap strings.
Import ListNotations.

Local Open Scope string_scope.
Local Open Scope Z_scope.

(** ** Exceptions and a state-and-exception monad *)

(** The exception classes the modelled code throws or lets through. *)
Inductive Exn : Type :=
| ExpiredRefreshTokenException
| UserNotFoundException
| InvalidRefreshTokenException
| UnexpectedErrorWhenRefreshingAccessTokenException
| GoogleAuthFailedException
| UnexpectedErrorWhenLoggingOutException
| VerificationEmailSendingFailedException
| PasswordResetEmailSendingFailedException
| UnauthorizedException (msg : string)
| TypeError
| ZodError
| JsError (msg : string).

#[global] Instance Exn_eq_dec : EqDecision Exn.
Proof. solve_decision. Defined.

(** How a call ends: with a value, or with a thrown exception. *)
Inductive Outcome (A : Type) : Type :=
| Returned (a : A)
| Thrown (e : Exn).
Arguments Returned {A} a.
Arguments Thrown {A} e.

(** A computation over a mutable state [S]: the state reached is kept when an
    exception is thrown, as a JavaScript [throw] keeps earlier writes. *)
Definition M (S A : Type) : Type := S -> Outcome A * S.

Definition ret {S A} (a : A) : M S A := fun s => (Returned a, s).

Definition bind {S A B} (c : M S A) (k : A -> M S B) : M S B :=
  fun s => match c s with
           | (Returned a, s') => k a s'
           | (Thrown e, s') => (Thrown e, s')
           end.

Definition throw {S A} (e : Exn) : M S A := fun s => (Thrown e, s).

(** [try { body } catch (error) { handler error }] *)
Definition try_catch {S A} (body : M S A) (handler : Exn -> M S A) : M S A :=
  fun s => match body s with
           | (Returned a, s') => (Returned a, s')
           | (Thrown e, s') => handler e s'
           end.

Definition get {S} : M S S := fun s => (Returned s, s).
Definition modify {S} (f : S -> S) : M S unit := fun s => (Returned tt, f s).

Declare Scope js_scope.
Delimit Scope js_scope with js.
Notation "x <~ c ;; k" := (bind c (fun x => k))
  (at level 100, c at next level, right associativity) : js_scope.
Notation "c ;;; k" := (bind c (fun _ => k))
  (at level 100, right associativity) : js_scope.

(** JavaScript truthiness of [string | undefined]: the empty string and
    [undefined] are falsy. *)
Definition truthy (o : option string) : bool :=
  match o with
  | Some s => negb (String.eqb s "")
  | None => false
  end.

(** ** [src/google-sso.service.ts] *)
Module GoogleSso.

Inductive AuthenticationMethod := GoogleSSO | EmailPassword.
Inductive AuthenticationEventType := Login | Registration.
Inductive AuthenticationStatus := Success | Failure.
Inductive AuthenticationLogErrorMessages := UnexpectedErrorWhenAttemptingGoogleSso.

Record User := mkUser {
  user_id : Z;
  user_email : option string;
  user_roles : list string
}.

(** A row of the refresh-token table ([RefreshToken] of
    [database.interface]). Rows are never removed, only deactivated. *)
Record RefreshToken := mkRefreshToken {
  rt_id : Z;
  rt_user_id : Z;
  token : string;
  rt_method : AuthenticationMethod;
  expires_on : Z;
  last_used_on : option Z;
  is_active : bool
}.

Record UserRequestInfoDto := mkRequestInfo {
  ip_address : string;
  user_agent : string
}.

(** One row of the authentication log: the seven arguments of
    [logAuthenticationEvent]. *)
Record AuthenticationEvent := mkEvent {
  ev_user_id : option Z;
  ev_type : AuthenticationEventType;
  ev_method : AuthenticationMethod;
  ev_status : AuthenticationStatus;
  ev_request_info : UserRequestInfoDto;
  ev_error : option AuthenticationLogErrorMessages;
  ev_refresh_token_id : option Z
}.

(** A flat JSON object: its properties in order. *)
Definition Json := list (string * string).

(** Payload of a decoded Google id token. *)
Record GoogleSsoJwtDecodedPayload := mkPayload {
  email : option string;
  email_verified : bool;
  payload_fields : Json
}.

Record GoogleSsoJwtDecodedToken := mkDecoded {
  payload : GoogleSsoJwtDecodedPayload
}.

Record GoogleUserDto := mkGoogleUser {
  gu_email : option string;
  emailVerified : bool;
  gu_fields : Json
}.

(** What [googleClient.refresh] resolves to. *)
Record TokenSet := mkTokenSet {
  access_token : option string;
  refresh_token : option string;
  id_token : option string
}.

Record AuthTokens := mkAuthTokens {
  accessToken : string;
  refreshToken : option string
}.

(** A request sent to Google through the OpenID client. *)
Inductive GoogleCall :=
| Refresh (t : string)
| Revoke (t : string).

(** The persistent state behind the injected services, the clock, and the
    requests sent to Google so far. *)
Record World := mkWorld {
  users : list User;
  refresh_tokens : list RefreshToken;
  verification : gmap Z bool;
  google_sso : list (Z * GoogleUserDto * Json);
  auth_log : list AuthenticationEvent;
  outbox : list Z;
  now : Z;
  google_calls : list GoogleCall
}.

(** The call sites of the service, one per awaited or helper call. *)
Inductive Site :=
| Reg_createUser | Reg_createGoogleSso | Reg_createUserVerification
| Reg_markEmailVerified | Reg_sendUserVerificationEmail
| Reg_logAuthenticationEvent | Reg_createRefreshToken | Reg_generateJwtToken
| Ref_deactivateExpired | Ref_updateLastUsedOn | Ref_getUserByEmail
| Ref_deactivateRefreshTokens | Ref_createRefreshToken | Ref_generateJwtToken
| Log_getUserByEmail | Log_deactivateRefreshTokens | Log_createRefreshToken
| Log_createGoogleSso | Log_isEmailVerified | Log_markEmailVerified
| Log_logSuccess | Log_generateJwtToken | Log_logFailure.

#[global] Instance Site_eq_dec : EqDecision Site.
Proof. solve_decision. Defined.

(** Everything the service receives from outside: the OpenID client, the JWT
    codec, two constants, and the exceptions its collaborators raise. *)
Record Env := mkEnv {
  (** [googleClient.refresh(token)]: throws, or resolves to a token set
      (possibly [undefined]). *)
  googleClient_refresh : string -> Outcome (option TokenSet);
  (** [googleClient.revoke(token)]. *)
  googleClient_revoke : string -> Outcome unit;
  (** [jwtService.decode(idToken, {complete: true})]: [null] when the token
      cannot be decoded. *)
  jwt_decode : option string -> option GoogleSsoJwtDecodedToken;
  (** [generateJwtToken(jwtService, user, seconds)]. *)
  jwt_sign : User -> Z -> string;
  ACCESS_TOKEN_EXPIRATION_SECONDS : Z;
  (** Lifetime given to a refresh token when it is stored. *)
  REFRESH_TOKEN_LIFETIME : Z;
  (** [raised s = Some e]: the collaborator called at site [s] rejects with
      [e], leaving the state as it was. *)
  raised : Site -> option Exn
}.

(** *** The collaborators *)

(** Modelled from the spec: [UserRepository.findByEmail(email) -> User | null];
    [UserService] is not among the sources. *)
Definition getUserByEmail (e : option string) (w : World) : option User :=
  match e with
  | None => None
  | Some a =>
      find (fun u => match user_email u with
                     | Some b => String.eqb a b
                     | None => false
                     end) (users w)
  end.

Definition fresh_user_id (w : World) : Z :=
  1 + fold_right Z.max 0 (map user_id (users w)).

(** Modelled from the spec: [UserRepository.create(partialUser) -> User]; the
    new row gets an id no other user has. *)
Definition createUser (e : option string) (w : World) : User * World :=
  let u := mkUser (fresh_user_id w) e [] in
  (u, mkWorld (users w ++ [u]) (refresh_tokens w) (verification w)
        (google_sso w) (auth_log w) (outbox w) (now w) (google_calls w)).

Definition deactivate_row (userId : Z) (r : RefreshToken) : RefreshToken :=
  if Z.eqb (rt_user_id r) userId
  then mkRefreshToken (rt_id r) (rt_user_id r) (token r) (rt_method r)
         (expires_on r) (last_used_on r) false
  else r.

(** Modelled from the spec: [RefreshTokenStore.deactivateAll(userId)] turns
    off every token of the user; [RefreshTokenService] is not among the
    sources. *)
Definition deactivateRefreshTokens (userId : Z) (w : World) : World :=
  mkWorld (users w) (map (deactivate_row userId) (refresh_tokens w))
    (verification w) (google_sso w) (auth_log w) (outbox w) (now w) (google_calls w).

Definition fresh_token_id (w : World) : Z :=
  1 + fold_right Z.max 0 (map rt_id (refresh_tokens w)).

(** Modelled from the spec: [RefreshTokenStore.create(userId, token, method)
    -> tokenId] stores an active row and returns its id. *)
Definition createRefreshToken (lifetime : Z) (userId : Z) (t : string)
    (m : AuthenticationMethod) (w : World) : Z * World :=
  let i := fresh_token_id w in
  (i, mkWorld (users w)
        (refresh_tokens w ++
           [mkRefreshToken i userId t m (now w + lifetime) None true])
        (verification w) (google_sso w) (auth_log w) (outbox w) (now w) (google_calls w)).

Definition touch_row (t : string) (at_ : Z) (r : RefreshToken) : RefreshToken :=
  if String.eqb (token r) t
  then mkRefreshToken (rt_id r) (rt_user_id r) (token r) (rt_method r)
         (expires_on r) (Some at_) (is_active r)
  else r.

(** Modelled from the spec: [RefreshTokenStore.updateLastUsed(token)]. *)
Definition updateLastUsedOn (t : string) (w : World) : World :=
  mkWorld (users w) (map (touch_row t (now w)) (refresh_tokens w))
    (verification w) (google_sso w) (auth_log w) (outbox w) (now w) (google_calls w).

(** Modelled from the spec (the verification flag of a user):
    [UserVerificationService] is not among the sources. A new record is
    unverified; a user without a record is not verified. *)
Definition createUserVerification (userId : Z) (w : World) : World :=
  mkWorld (users w) (refresh_tokens w) (<[userId := false]> (verification w))
    (google_sso w) (auth_log w) (outbox w) (now w) (google_calls w).

Definition markEmailVerified (userId : Z) (w : World) : World :=
  mkWorld (users w) (refresh_tokens w) (<[userId := true]> (verification w))
    (google_sso w) (auth_log w) (outbox w) (now w) (google_calls w).

Definition isEmailVerified (userId : Z) (w : World) : bool :=
  default false (verification w !! userId).

(** Modelled from the spec: [AuditLog.record(event)] appends one row. *)
Definition logAuthenticationEvent (ev : AuthenticationEvent) (w : World) : World :=
  mkWorld (users w) (refresh_tokens w) (verification w) (google_sso w)
    (auth_log w ++ [ev]) (outbox w) (now w) (google_calls w).

(** Modelled from the spec: the verification email is handed to the email
    gateway; [AuthService.sendUserVerificationEmail] is not among the
    sources. *)
Definition sendUserVerificationEmail (u : User) (w : World) : World :=
  mkWorld (users w) (refresh_tokens w) (verification w) (google_sso w)
    (auth_log w) (outbox w ++ [user_id u]) (now w) (google_calls w).

(** [googleSsoRepository.createGoogleSso(userId, dto, json)]. *)
Definition repository_createGoogleSso (userId : Z) (g : GoogleUserDto)
    (j : Json) (w : World) : World :=
  mkWorld (users w) (refresh_tokens w) (verification w)
    (google_sso w ++ [(userId, g, j)]) (auth_log w) (outbox w) (now w) (google_calls w).

(** A request leaves for Google. *)
Definition record_call (c : GoogleCall) (w : World) : World :=
  mkWorld (users w) (refresh_tokens w) (verification w) (google_sso w)
    (auth_log w) (outbox w) (now w) (google_calls w ++ [c]).

(** [plainToClass(GoogleUserDto, payload)] *)
Definition plainToClass (p : GoogleSsoJwtDecodedPayload) : GoogleUserDto :=
  mkGoogleUser (email p) (email_verified p) (payload_fields p).

(** [JSON.stringify(googleUser)] followed by [JSON.parse]: the properties
    of the object; an undefined [email] is left out. *)
Definition stringify (g : GoogleUserDto) : Json :=
  (match gu_email g with
   | Some e => [("email", e)]
   | None => []
   end ++
   [("emailVerified", if emailVerified g then "true" else "false")] ++
   gu_fields g)%list.

(** [delete parsedJson.access_token] *)
Definition delete_access_token (j : Json) : Json :=
  List.filter (fun kv => negb (String.eqb (fst kv) "access_token")) j.

(** *** The service *)
Section Service.
Context (env : Env).

Local Open Scope js_scope.

(** A collaborator call at site [s] that returns a value. *)
Definition call {A} (s : Site) (op : World -> A * World) : M World A :=
  fun w => match raised env s with
           | Some e => (Thrown e, w)
           | None => let (a, w') := op w in (Returned a, w')
           end.

(** A collaborator call that only changes the state. *)
Definition call_ (s : Site) (op : World -> World) : M World unit :=
  call s (fun w => (tt, op w)).

(** A collaborator call that only reads the state. *)
Definition query {A} (s : Site) (op : World -> A) : M World A :=
  call s (fun w => (op w, w)).

(** [googleClient.refresh(token)] *)
Definition refresh (t : string) : M World (option TokenSet) :=
  fun w => (googleClient_refresh env t, record_call (Refresh t) w).

(** [googleClient.revoke(token)] *)
Definition revoke (t : string) : M World unit :=
  fun w => (googleClient_revoke env t, record_call (Revoke t) w).

(** [generateJwtToken(this.jwtService, user, ACCESS_TOKEN_EXPIRATION_SECONDS)] *)
Definition generateJwtToken (s : Site) (u : User) : M World string :=
  query s (fun _ => jwt_sign env u (ACCESS_TOKEN_EXPIRATION_SECONDS env)).

(** [createGoogleSso], lines 112-121. *)
Definition createGoogleSso (s : Site) (userId : Z) (g : GoogleUserDto)
    (rawJson : Json) : M World unit :=
  let parsedJson := rawJson in
  let sanitizedJson := delete_access_token parsedJson in
  call_ s (repository_createGoogleSso userId g sanitizedJson).

(** [createGoogleSsoUser], lines 55-104. *)
Definition createGoogleSsoUser (refreshToken0 : string)
    (userRequestInfoDto : UserRequestInfoDto) : M World AuthTokens :=
  newTokenSet <~ refresh refreshToken0 ;;
  match newTokenSet with
  | None => throw TypeError
  | Some newTokenSet =>
      match jwt_decode env (id_token newTokenSet) with
      | None => throw TypeError
      | Some decodedToken =>
          user <~ call Reg_createUser (createUser (email (payload decodedToken))) ;;
          let googleUser := plainToClass (payload decodedToken) in
          createGoogleSso Reg_createGoogleSso (user_id user) googleUser
            (stringify googleUser) ;;;
          call_ Reg_createUserVerification (createUserVerification (user_id user)) ;;;
          (if email_verified (payload decodedToken)
           then call_ Reg_markEmailVerified (markEmailVerified (user_id user))
           else call_ Reg_sendUserVerificationEmail (sendUserVerificationEmail user)) ;;;
          call_ Reg_logAuthenticationEvent
            (logAuthenticationEvent
               (mkEvent (Some (user_id user)) Registration GoogleSSO Success
                  userRequestInfoDto None None)) ;;;
          let refreshToken1 :=
            match refresh_token newTokenSet with
            | Some t => t
            | None => refreshToken0
            end in
          call Reg_createRefreshToken
            (createRefreshToken (REFRESH_TOKEN_LIFETIME env) (user_id user)
               refreshToken1 GoogleSSO) ;;;
          accessToken <~ generateJwtToken Reg_generateJwtToken user ;;
          ret (mkAuthTokens accessToken (Some refreshToken1))
      end
  end.

(** The allow-list of the [catch] block of [refreshGoogleAccessToken]. *)
Definition passes_through (e : Exn) : bool :=
  match e with
  | ExpiredRefreshTokenException
  | UserNotFoundException
  | InvalidRefreshTokenException => true
  | _ => false
  end.

(** [refreshGoogleAccessToken], lines 128-184. *)
Definition refreshGoogleAccessToken (refreshToken0 : RefreshToken)
    (userId : Z) : M World AuthTokens :=
  try_catch
    (w <~ get ;;
     (if Z.ltb (expires_on refreshToken0) (now w)
      then call_ Ref_deactivateExpired (deactivateRefreshTokens userId) ;;;
           throw ExpiredRefreshTokenException
      else ret tt) ;;;
     newTokenSet <~ refresh (token refreshToken0) ;;
     match newTokenSet with
     | None => throw UnexpectedErrorWhenRefreshingAccessTokenException
     | Some newTokenSet =>
         if negb (truthy (access_token newTokenSet))
         then throw UnexpectedErrorWhenRefreshingAccessTokenException
         else
           call_ Ref_updateLastUsedOn (updateLastUsedOn (token refreshToken0)) ;;;
           let decodedToken := jwt_decode env (id_token newTokenSet) in
           user <~ query Ref_getUserByEmail
                     (getUserByEmail
                        (match decodedToken with
                         | Some d => email (payload d)
                         | None => None
                         end)) ;;
           match user with
           | None => throw UserNotFoundException
           | Some user =>
               newRefreshToken <~
                 match refresh_token newTokenSet with
                 | Some t =>
                     if truthy (Some t)
                     then
                       call_ Ref_deactivateRefreshTokens
                         (deactivateRefreshTokens (user_id user)) ;;;
                       call Ref_createRefreshToken
                         (createRefreshToken (REFRESH_TOKEN_LIFETIME env)
                            (user_id user) t GoogleSSO) ;;;
                       ret (Some t)
                     else ret None
                 | None => ret None
                 end ;;
               accessToken <~ generateJwtToken Ref_generateJwtToken user ;;
               ret (mkAuthTokens accessToken newRefreshToken)
           end
     end)
    (fun error =>
       if passes_through error
       then throw error
       else throw UnexpectedErrorWhenRefreshingAccessTokenException).

(** The local variables of [googleLogin] that its [catch] block reads,
    together with the state of the services. *)
Record LoginFrame := mkFrame {
  userId : option Z;
  world : World
}.

Definition lift {A} (c : M World A) : M LoginFrame A :=
  fun f => let (r, w') := c (world f) in (r, mkFrame (userId f) w').

Definition set_userId (i : Z) : M LoginFrame unit :=
  modify (fun f => mkFrame (Some i) (world f)).

Definition success_event (u : User) (info : UserRequestInfoDto)
    (refreshTokenId : option Z) : AuthenticationEvent :=
  mkEvent (Some (user_id u)) Login GoogleSSO Success info None refreshTokenId.

Definition failure_event (isNewUser : bool) (uid : option Z)
    (info : UserRequestInfoDto) : AuthenticationEvent :=
  mkEvent uid (if isNewUser then Registration else Login) GoogleSSO Failure
    info (Some UnexpectedErrorWhenAttemptingGoogleSso) None.

(** [googleLogin], lines 193-256, on the frame of its local variables. *)
Definition googleLogin_frame (googleUser : GoogleUserDto) (refreshToken0 : string)
    (userRequestInfoDto : UserRequestInfoDto) : M LoginFrame string :=
  let isNewUser := false in
  try_catch
    (user <~ lift (query Log_getUserByEmail (getUserByEmail (gu_email googleUser))) ;;
     match user with
     | None => throw TypeError
     | Some user =>
         set_userId (user_id user) ;;;
         refreshTokenId <~
           (if truthy (Some refreshToken0)
            then
              lift (call_ Log_deactivateRefreshTokens
                      (deactivateRefreshTokens (user_id user))) ;;;
              i <~ lift (call Log_createRefreshToken
                           (createRefreshToken (REFRESH_TOKEN_LIFETIME env)
                              (user_id user) refreshToken0 GoogleSSO)) ;;
              ret (Some i)
            else ret None) ;;
         lift (createGoogleSso Log_createGoogleSso (user_id user) googleUser
                 (stringify googleUser)) ;;;
         isVerified <~ lift (query Log_isEmailVerified (isEmailVerified (user_id user))) ;;
         (if negb isVerified && emailVerified googleUser
          then lift (call_ Log_markEmailVerified (markEmailVerified (user_id user)))
          else ret tt) ;;;
         lift (call_ Log_logSuccess
                 (logAuthenticationEvent
                    (success_event user userRequestInfoDto refreshTokenId))) ;;;
         lift (generateJwtToken Log_generateJwtToken user)
     end)
    (fun error =>
       f <~ get ;;
       lift (call_ Log_logFailure
               (logAuthenticationEvent
                  (failure_event isNewUser (userId f) userRequestInfoDto))) ;;;
       throw GoogleAuthFailedException).

(** [googleLogin] as its caller sees it: [userId] starts as [null]. *)
Definition googleLogin (googleUser : GoogleUserDto) (refreshToken0 : string)
    (userRequestInfoDto : UserRequestInfoDto) : M World string :=
  fun w =>
    let (r, f) := googleLogin_frame googleUser refreshToken0 userRequestInfoDto
                    (mkFrame None w) in
    (r, world f).

(** [revokeRefreshToken], lines 265-276. *)
Definition revokeRefreshToken (refreshToken0 : string) : M World unit :=
  try_catch
    (revoke refreshToken0)
    (fun error =>
       match error with
       | InvalidRefreshTokenException => throw error
       | _ => throw UnexpectedErrorWhenLoggingOutException
       end).

End Service.

(** *** Observations on the state *)

(** The active refresh-token rows of a user. *)
Definition active_tokens (uid : Z) (w : World) : list RefreshToken :=
  List.filter (fun r => Z.eqb (rt_user_id r) uid && is_active r) (refresh_tokens w).

End GoogleSso.

(** ** [src/authenticate-user.middleware.ts] *)
Module SessionMiddleware.

(** A cookie of the request, as [request.cookies] hands it out. *)
Record RequestCookie := mkCookie {
  name : string;
  value : string
}.

Inductive SameSite := lax | strict | none.

Record CookieOptions := mkOptions {
  path : string;
  httpOnly : bool;
  secure : bool;
  sameSite : SameSite;
  maxAge : option Z
}.

(** What a response asks the user agent to do with one cookie name:
    [response.cookies.set(name, value, options)] or
    [response.cookies.delete(name)]. A value may be [undefined]. *)
Inductive CookieWrite :=
| SetCookie (v : option string) (o : CookieOptions)
| DeleteCookie.

Record NextRequest := mkRequest {
  cookies : gmap string string;
  headers : gmap string string;
  pathname : string
}.

Inductive ResponseKind :=
| Next
| Redirect (url : string).

Record NextResponse := mkResponse {
  kind : ResponseKind;
  r_cookies : gmap string CookieWrite;
  r_headers : gmap string string
}.

(** The logged-in actor: [me.__typename] is ['User'] or ['Patient']. *)
Inductive Me :=
| User (language : string) (fields : list (string * string))
| Patient (fields : list (string * string)).

Record ActorResponse := mkActor {
  me : option Me;
  sessionId : string;
  token : string
}.

(** [authLoggedUserQuery$data] *)
Record QueryData := mkData {
  loggedUser : option ActorResponse
}.

(** What the middleware imports from files that are not among the sources. *)
Record Helpers := mkHelpers {
  (** [fetchLoggedInUserInfo(cookieHeader)] resolves to [[data, error]]. *)
  fetchLoggedInUserInfo : string -> option QueryData * option Exn;
  getPatientSessionCookie : NextRequest -> option RequestCookie;
  getUserSessionCookies : NextRequest -> list RequestCookie;
  removeNonValidSessions : ActorResponse -> NextRequest -> NextResponse -> NextResponse;
  getLangPrefix : string -> string;
  getRoutePathLang : string -> string;
  removeLangPrefix : string -> string;
  (** [JSON.stringify(me)] *)
  stringify : Me -> string
}.

(** [isUser] of [type-guards.util]: the discriminant of [me]. *)
Definition isUser (m : Me) : bool :=
  match m with
  | User _ _ => true
  | Patient _ => false
  end.

(** [s.split('=')]: the pieces between the separators, never empty. *)
Fixpoint split_acc (sep : Ascii.ascii) (s : string) (cur : string) : list string :=
  match s with
  | EmptyString => [cur]
  | String c rest =>
      if Ascii.eqb c sep
      then cur :: split_acc sep rest ""
      else split_acc sep rest (cur ++ String c "")
  end.

Definition split (sep : Ascii.ascii) (s : string) : list string :=
  split_acc sep s "".

(** [NextResponse.next()] *)
Definition NextResponse_next : NextResponse := mkResponse Next ∅ ∅.

(** [NextResponse.redirect(url)] *)
Definition NextResponse_redirect (url : string) : NextResponse :=
  mkResponse (Redirect url) ∅ ∅.

Definition cookies_set (n : string) (v : option string) (o : CookieOptions)
    (r : NextResponse) : NextResponse :=
  mkResponse (kind r) (<[n := SetCookie v o]> (r_cookies r)) (r_headers r).

Definition cookies_delete (n : string) (r : NextResponse) : NextResponse :=
  mkResponse (kind r) (<[n := DeleteCookie]> (r_cookies r)) (r_headers r).

Definition headers_set (n v : string) (r : NextResponse) : NextResponse :=
  mkResponse (kind r) (r_cookies r) (<[n := v]> (r_headers r)).

Definition headers_delete (n : string) (r : NextResponse) : NextResponse :=
  mkResponse (kind r) (r_cookies r) (delete n (r_headers r)).

(** [request.cookies.set(name, value)] *)
Definition request_cookies_set (n v : string) (q : NextRequest) : NextRequest :=
  mkRequest (<[n := v]> (cookies q)) (headers q) (pathname q).

(** What one cookie of the user agent becomes under a write of the
    response: a deletion removes it, a set replaces it. *)
Definition apply_write (w : option CookieWrite) (old : option string) : option string :=
  match w with
  | Some DeleteCookie => None
  | Some (SetCookie v _) => Some (default "" v)
  | None => old
  end.

(** The cookie jar of the user agent after it has read the response. *)
Definition apply_cookies (r : NextResponse) (jar : gmap string string) : gmap string string :=
  merge apply_write (r_cookies r) jar.

Section Middleware.
Context (h : Helpers).

Definition default_options (age : option Z) : CookieOptions :=
  mkOptions "/" false true lax age.

(** [markSessionFetched], lines 68-79. *)
Definition markSessionFetched (userSessionId : string) (response : NextResponse)
    : NextResponse :=
  let parts := split "="%char userSessionId in
  let sessionId := default "" (head parts) in
  let sessionValue := parts !! 1%nat in
  cookies_set ("user-" ++ sessionId) sessionValue (default_options (Some 60)) response.

(** [cookiesHasFetchedActor], lines 81-96. *)
Definition cookiesHasFetchedActor (request : NextRequest) : bool :=
  let patientSessionCookie := getPatientSessionCookie h request in
  let userSessionCookies := getUserSessionCookies h request in
  if (length userSessionCookies <? 1)%nat && negb (bool_decide (is_Some patientSessionCookie))
  then false
  else
    match userSessionCookies with
    | [sessionId] =>
        if bool_decide (cookies request !! ("user-" ++ name sessionId)
                        = Some (value sessionId))
        then true
        else false
    | _ => false
    end.

(** [clearSessionCookies], lines 98-108. *)
Definition clearSessionCookies : NextResponse :=
  let response := NextResponse_next in
  let response := cookies_delete "logged-user" response in
  let response := cookies_delete "authToken" response in
  let response := headers_delete "logged-user" response in
  let response := headers_delete "authToken" response in
  response.

(** [actor.me.language === 'nb' ? 'no' : actor.me.language] *)
Definition preferredLang (language : string) : string :=
  if String.eqb language "nb" then "no" else language.

(** [userNeedsLangRedirect], lines 110-121. *)
Definition userNeedsLangRedirect (actor : Me) (request : NextRequest) : bool :=
  match actor with
  | Patient _ => false
  | User language _ =>
      let isNewUserSession := negb (bool_decide (is_Some (cookies request !! "logged-user"))) in
      if negb isNewUserSession then false
      else
        let lang := getRoutePathLang h (pathname request) in
        negb (String.eqb lang (preferredLang language))
  end.

(** [redirectToUserLang], lines 123-127. *)
Definition redirectToUserLang (language : string) (request : NextRequest) : NextResponse :=
  let langPrefix := getLangPrefix h (preferredLang language) in
  NextResponse_redirect (langPrefix ++ removeLangPrefix h (pathname request)).

(** [setActorCookies], lines 30-65, for an actor whose [me] is present; the
    request it has written to comes back with the response. *)
Definition setActorCookies (loggedUser : ActorResponse) (actor : Me)
    (request : NextRequest) : NextRequest * NextResponse :=
  let response :=
    if userNeedsLangRedirect actor request
    then match actor with
         | User language _ => redirectToUserLang language request
         | Patient _ => NextResponse_next
         end
    else NextResponse_next in
  let response :=
    if isUser actor
    then markSessionFetched (sessionId loggedUser)
           (removeNonValidSessions h loggedUser request response)
    else response in
  let meStr := stringify h actor in
  let request := request_cookies_set "logged-user" meStr request in
  let response := cookies_set "logged-user" (Some meStr) (default_options None) response in
  let response := cookies_set "authToken" (Some (token loggedUser)) (default_options None) response in
  let response := headers_set "logged-user" meStr response in
  let response := headers_set "authToken" (token loggedUser) response in
  (request, response).

(** [loggedUser?.loggedUser?.me], with the actor response it belongs to. *)
Definition present_actor (data : option QueryData) : option (ActorResponse * Me) :=
  match data with
  | Some d =>
      match loggedUser d with
      | Some actor =>
          match me actor with
          | Some m => Some (actor, m)
          | None => None
          end
      | None => None
      end
  | None => None
  end.

(** What one run of the middleware did: the cookie headers it sent to
    [fetchLoggedInUserInfo], the request as it left it, and the response it
    returned ([None] for a bare [return]). *)
Record Run := mkRun {
  fetched : list string;
  request_after : NextRequest;
  response : option NextResponse
}.

(** [request.headers.get('cookie') || ''] *)
Definition cookieHeader (request : NextRequest) : string :=
  match headers request !! "cookie" with
  | Some c => if String.eqb c "" then "" else c
  | None => ""
  end.

(** [authenticateUserMiddleware], lines 13-25. *)
Definition authenticateUserMiddleware (request : NextRequest) : Run :=
  if cookiesHasFetchedActor request then mkRun [] request None
  else
    let cookieHeader := cookieHeader request in
    let '(data, error) := fetchLoggedInUserInfo h cookieHeader in
    match error with
    | Some _ => mkRun [cookieHeader] request None
    | None =>
        match present_actor data with
        | None => mkRun [cookieHeader] request (Some clearSessionCookies)
        | Some (actor, m) =>
            let '(request, response) := setActorCookies actor m request in
            mkRun [cookieHeader] request (Some response)
        end
    end.

End Middleware.
End SessionMiddleware.

(** ** The GraphQL auth context ([getAuthContext] and its decorators) *)
Module AuthContext.

(** A value sent by the client, before any schema has looked at it. *)
Inductive JsValue :=
| JsUndefined
| JsNull
| JsString (s : string)
| JsNumber (n : Z)
| JsBoolean (b : bool).

Definition Role := string.

(** [req.user]: the [User] entity. *)
Record User := mkUser {
  roles : list Role;
  user_fields : list (string * string)
}.

Record AuthUser := mkAuthUser {
  au_roles : list Role;
  au_fields : list (string * string);
  isCustomersAdmin : bool;
  sessionId : string
}.

Record AuthPatient := mkAuthPatient {
  patientId : Z;
  code : string;
  token : string
}.

Record ExtendedRequest := mkExtendedRequest {
  req_user : option User;
  req_patient : option AuthPatient;
  req_sessionId : option string;
  connectionParams : option (gmap string JsValue);
  headers : gmap string string
}.

(** [IGqlContext]; [user] and [patient] are [null] when [None]. *)
Record IGqlContext := mkContext {
  lang : string;
  windowId : option string;
  pathname : string;
  user : option AuthUser;
  patient : option AuthPatient
}.

(** [z.string().optional().parse(v)] *)
Definition parse_optional_string (v : JsValue) : Outcome (option string) :=
  match v with
  | JsUndefined => Returned None
  | JsString s => Returned (Some s)
  | _ => Thrown ZodError
  end.

(** [req.connectionParams?.windowId] *)
Definition raw_windowId (req : ExtendedRequest) : JsValue :=
  match connectionParams req with
  | Some ps => default JsUndefined (ps !! "windowId")
  | None => JsUndefined
  end.

(** [z.enum(['en', 'no']).catch('no').parse(v)] *)
Definition parse_lang (v : string) : string :=
  if String.eqb v "en" then "en"
  else if String.eqb v "no" then "no"
  else "no".

(** [getLang], lines 92-97. *)
Definition getLang (hs : gmap string string) : string :=
  parse_lang (default "" (hs !! "accept-language")).

(** Does [p] start [s]? *)
Fixpoint starts_with (p s : string) : bool :=
  match p, s with
  | EmptyString, _ => true
  | String a p', String b s' => Ascii.eqb a b && starts_with p' s'
  | String _ _, EmptyString => false
  end.

Fixpoint drop_chars (n : nat) (s : string) : string :=
  match n, s with
  | O, _ => s
  | S n', String _ s' => drop_chars n' s'
  | S _, EmptyString => EmptyString
  end.

(** [s.replace(pattern, '')] for a string pattern: the first occurrence of
    the pattern is taken out, and a string without it is left alone. *)
Fixpoint remove_first (pattern s : string) : string :=
  if starts_with pattern s then drop_chars (String.length pattern) s
  else match s with
       | EmptyString => EmptyString
       | String c s' => String c (remove_first pattern s')
       end.

(** [getPathname], lines 85-90. *)
Definition getPathname (hs : gmap string string) : string :=
  let pageUrl := default "" (hs !! "x-page-url") in
  let baseUrl := default "" (hs !! "origin") in
  remove_first baseUrl pageUrl.

Section Context_.
(** [hasOneOfTheRoles] and [RolesCustomerAdmin] of [../enums], and
    [getContextRequest] of the auth guard, are not among the sources. *)
Context (hasOneOfTheRoles : list Role -> list Role -> bool)
        (RolesCustomerAdmin : list Role)
        {ExecutionContext : Type}
        (getContextRequest : ExecutionContext -> ExtendedRequest).

(** [isCustomersAdmin], lines 38-41 (the helper, named apart from the field). *)
Definition isCustomersAdmin_of (u : option User) : bool :=
  match u with
  | None => false
  | Some u => hasOneOfTheRoles (roles u) RolesCustomerAdmin
  end.

(** [getExtendedRequestAuthContext], lines 20-36: [Returned None] is the
    [undefined] of a request with neither actor. *)
Definition getExtendedRequestAuthContext (req : ExtendedRequest)
    : Outcome (option IGqlContext) :=
  match parse_optional_string (raw_windowId req) with
  | Thrown e => Thrown e
  | Returned windowId =>
      let lang := getLang (headers req) in
      let pathname := getPathname (headers req) in
      match req_user req with
      | Some u =>
          let sessionId := default "" (req_sessionId req) in
          let user := mkAuthUser (roles u) (user_fields u)
                        (isCustomersAdmin_of (Some u)) sessionId in
          Returned (Some (mkContext lang windowId pathname (Some user) None))
      | None =>
          match req_patient req with
          | Some p => Returned (Some (mkContext lang windowId pathname None (Some p)))
          | None => Returned None
          end
      end
  end.

(** [getAuthContext], lines 43-50. *)
Definition getAuthContext (ctx : ExecutionContext) : Outcome IGqlContext :=
  let req := getContextRequest ctx in
  match getExtendedRequestAuthContext req with
  | Thrown e => Thrown e
  | Returned extContext =>
      match extContext with
      | Some c =>
          match user c, patient c with
          | None, None => Thrown (JsError "Either user or patient must be non-null.")
          | _, _ => Returned c
          end
      | None => Thrown (JsError "Either user or patient must be non-null.")
      end
  end.

(** [getContextUser], lines 52-56. *)
Definition getContextUser (ctx : ExecutionContext) : Outcome AuthUser :=
  match getAuthContext ctx with
  | Thrown e => Thrown e
  | Returned c =>
      match user c with
      | None => Thrown (UnauthorizedException "User is not authenticated")
      | Some u => Returned u
      end
  end.

(** [getGqlModuleContextUser], lines 60-65, on the request of the module
    context. *)
Definition getGqlModuleContextUser (req : ExtendedRequest) : Outcome AuthUser :=
  match getExtendedRequestAuthContext req with
  | Thrown e => Thrown e
  | Returned extContext =>
      match extContext ≫= user with
      | None => Thrown (UnauthorizedException "User is not authenticated")
      | Some u => Returned u
      end
  end.

(** [getContextPatient], lines 67-71. *)
Definition getContextPatient (ctx : ExecutionContext) : Outcome AuthPatient :=
  match getAuthContext ctx with
  | Thrown e => Thrown e
  | Returned c =>
      match patient c with
      | None => Thrown (UnauthorizedException "Patient is not authenticated")
      | Some p => Returned p
      end
  end.

End Context_.
End AuthContext.

(** ** The email service ([EmailService], sending through Amazon SES) *)
Module EmailService.

(** The [params] of a [SendEmailCommand]. *)
Record SendEmailCommand := mkCommand {
  Source : option string;
  ToAddresses : list string;
  Subject : string;
  Html : string
}.

(** The configuration and the SES client the service is built with. *)
Record Env := mkEnv {
  (** [configService.get(key)] *)
  config_get : string -> option string;
  FRONTEND_URL : string;
  AWS_SES_SENDER_EMAIL : string;
  (** [ses.send(command)] *)
  ses_send : SendEmailCommand -> Outcome unit
}.

(** A value inside a template literal: [undefined] prints as its name. *)
Definition interpolate (o : option string) : string :=
  match o with
  | Some s => s
  | None => "undefined"
  end.

(** The double quote. *)
Definition dq : string := String (Ascii.ascii_of_nat 34) "".

Definition reset_body (resetUrl : string) : string :=
  "
              <h1>Password Reset Request</h1>
              <p>You have requested to reset your password. Please click the link below to set a new password:</p>
              <a href=" ++ dq ++ resetUrl ++ dq ++ ">Reset Password</a>
              <p>If you did not request this, please ignore this email and your password will remain unchanged.</p>
            ".

Definition confirmation_body : string :=
  "
              <h1>Password Reset Confirmation</h1>
              <p>This email is to confirm that your password for Sproutful has been successfully reset.</p>
              <p>If you did not initiate this password reset, please contact our support team immediately.</p>
              <p>Thank you for using Sproutful!</p>
            ".

Section Service.
Context (env : Env).
Local Open Scope js_scope.

(** [await this.ses.send(command)]: the commands handed to SES are the
    state. *)
Definition send (command : SendEmailCommand) : M (list SendEmailCommand) unit :=
  fun sent => (ses_send env command, (sent ++ [command])%list).

(** [sendVerificationEmail], lines 43-68. *)
Definition sendVerificationEmail (to verificationToken : string)
    : M (list SendEmailCommand) unit :=
  try_catch
    (let verificationLink :=
       interpolate (config_get env (FRONTEND_URL env)) ++
       "/email-verification-callback?token=" ++ verificationToken in
     let senderEmail := config_get env (AWS_SES_SENDER_EMAIL env) in
     let command :=
       mkCommand senderEmail [to] "Sproutful - Email verification"
         ("Please click the following link to verify your email: " ++ verificationLink) in
     send command)
    (fun error => throw VerificationEmailSendingFailedException).

(** [sendPasswordResetEmail], lines 77-107. *)
Definition sendPasswordResetEmail (to resetToken : string)
    : M (list SendEmailCommand) unit :=
  try_catch
    (let senderEmail := config_get env (AWS_SES_SENDER_EMAIL env) in
     let resetUrl :=
       interpolate (config_get env "FRONTEND_URL") ++
       "/password-reset-callback?token=" ++ resetToken in
     let command :=
       mkCommand senderEmail [to] "Password Reset Request for Sproutful"
         (reset_body resetUrl) in
     send command)
    (fun error => throw PasswordResetEmailSendingFailedException).

(** [sendPasswordResetConfirmationEmail], lines 115-142. *)
Definition sendPasswordResetConfirmationEmail (to : string)
    : M (list SendEmailCommand) unit :=
  try_catch
    (let senderEmail := config_get env (AWS_SES_SENDER_EMAIL env) in
     let command :=
       mkCommand senderEmail [to] "Your Sproutful Password Has Been Reset"
         confirmation_body in
     send command)
    (fun error => throw PasswordResetEmailSendingFailedException).

End Service.
End EmailService.

(** ** [src/get-statistics-effect.use-case.ts] *)
Module StatisticsEffect.

(** A row of [statisticsRepository.getEffects]. The three flags are the
    numbers [Number(...)] makes of the columns. *)
Record Effect := mkEffect {
  period : string;
  caseness : Z;
  recovered : Z;
  reliablyimproved : Z;
  code : option string;
  patientId : option Z
}.

Record StatisticsFilterInput := mkInput {
  genders : list string;
  ageRanges : list string;
  occupations : list string;
  interventions : list string;
  status : list string;
  toolNodeIds : list Z;
  dischargeReasons : list string;
  periodicity : string;
  dateFrom : string;
  dateTo : string
}.

Inductive PatientDateFilterTypeEnum := REFERRAL_DATE.

(** The second argument of [getEffects]. *)
Record EffectsFilter := mkFilter {
  f_dateFilterType : PatientDateFilterTypeEnum;
  f_dateFrom : string;
  f_dateTo : string;
  f_excludedCodes : list string;
  f_genders : list string;
  f_ageRanges : list string;
  f_occupations : list string;
  f_interventions : list string;
  f_status : list string;
  f_toolNodeIds : list Z;
  f_dischargeReasons : list string
}.

(** One call of [getEffects], with its [includePatients] option. *)
Record EffectsQuery := mkQuery {
  q_customers : list Z;
  q_filter : EffectsFilter;
  q_nids : list Z;
  q_periodicity : string;
  includePatients : bool
}.

Record Dataset := mkDataset {
  label : string;
  data : list Z
}.

Record Chart := mkChart {
  labels : list string;
  datasets : list Dataset
}.

Record PatientRef := mkPatientRef {
  p_code : string;
  p_patientId : Z
}.

Record StatisticEffect := mkStatisticEffect {
  chart : Chart;
  patients : list PatientRef
}.

(** The services and helpers the use case is built on; none of them is
    among the sources. [ceil_percent a b] is
    [Math.ceil((a / b) * 100)], computed in double precision. *)
Record Deps := mkDeps {
  prepareStatisticsContext : StatisticsFilterInput -> Outcome (list Z * list string);
  prepareTimeFrames : StatisticsFilterInput -> string * string;
  getEffects : EffectsQuery -> Outcome (list Effect);
  GAD_PHQ_NIDS : list Z;
  getDatesForRange : string -> string -> string -> list string;
  formatDatesForChartLabels : list string -> string -> list string;
  ceil_percent : nat -> nat -> Z
}.

(** Truthiness of a number. *)
Definition truthy_number (z : Z) : bool := negb (Z.eqb z 0).

Section UseCase.
Context (deps : Deps).
Local Open Scope js_scope.

(** [getEffectsData], lines 79-96: the pair of [recoveryRate] and
    [reliablyImproved]. *)
Definition getEffectsData (effects : list Effect) : Z * Z :=
  let effectsWithCaseness := List.filter (fun e => truthy_number (caseness e)) effects in
  let countCaseness := length effectsWithCaseness in
  let countRecovered :=
    length (List.filter (fun e => truthy_number (recovered e)) effectsWithCaseness) in
  let countReliablyImproved :=
    length (List.filter (fun e => truthy_number (reliablyimproved e)) effectsWithCaseness) in
  let recoveryRate :=
    if (0 <? countCaseness)%nat then ceil_percent deps countRecovered countCaseness else 0 in
  let reliablyImproved :=
    if (0 <? countCaseness)%nat
    then ceil_percent deps countReliablyImproved countCaseness else 0 in
  (recoveryRate, reliablyImproved).

(** [effectDataGroupedByPeriod[period]]: the data of the effects of that
    period, and [undefined] when there is none. *)
Definition effectDataOfPeriod (effects : list Effect) (p : string) : option (Z * Z) :=
  match List.filter (fun e => String.eqb (period e) p) effects with
  | [] => None
  | group => Some (getEffectsData group)
  end.

(** [e.code && e.patientId] and the projection that follows it. *)
Definition patientRef (e : Effect) : option PatientRef :=
  match code e, patientId e with
  | Some c, Some i =>
      if negb (String.eqb c "") && truthy_number i then Some (mkPatientRef c i) else None
  | _, _ => None
  end.

(** [execute], lines 19-77; the state is the list of queries sent to the
    repository. *)
Definition execute (input : StatisticsFilterInput) (isCustomersAdmin : bool)
    : M (list EffectsQuery) StatisticEffect :=
  ctx <~ (fun s => (prepareStatisticsContext deps input, s)) ;;
  let '(customers, excludedCodes) := ctx in
  let currentTimeFrame := prepareTimeFrames deps input in
  let query :=
    mkQuery customers
      (mkFilter REFERRAL_DATE (fst currentTimeFrame) (snd currentTimeFrame)
         excludedCodes (genders input) (ageRanges input) (occupations input)
         (interventions input) (status input) (toolNodeIds input)
         (dischargeReasons input))
      (GAD_PHQ_NIDS deps) (periodicity input) isCustomersAdmin in
  effects <~ (fun s => (getEffects deps query, (s ++ [query])%list)) ;;
  let rangeDates :=
    getDatesForRange deps (periodicity input) (dateFrom input) (dateTo input) in
  let labels := formatDatesForChartLabels deps rangeDates (periodicity input) in
  let recoveryRateData :=
    map (fun p => match effectDataOfPeriod effects p with
                  | Some d => fst d
                  | None => 0
                  end) rangeDates in
  let reliablyImprovedData :=
    map (fun p => match effectDataOfPeriod effects p with
                  | Some d => snd d
                  | None => 0
                  end) rangeDates in
  let chart :=
    mkChart labels
      [mkDataset "Recovery Rate" recoveryRateData;
       mkDataset "Reliably Improved" reliablyImprovedData] in
  if isCustomersAdmin
  then ret (mkStatisticEffect chart (omap patientRef effects))
  else ret (mkStatisticEffect chart []).

End UseCase.
End StatisticsEffect.

(** ** Concrete data for the examples *)
Module Samples.
Import GoogleSso.

Definition ann : User := mkUser 1 (Some "ann@example.org") ["clinician"].

Definition info0 : UserRequestInfoDto := mkRequestInfo "203.0.113.7" "Firefox".

Definition ann_google (verified : bool) : GoogleUserDto :=
  mkGoogleUser (Some "ann@example.org") verified
    [("sub", "1084"); ("access_token", "ya29.secret")].

Definition ann_payload (verified : bool) : GoogleSsoJwtDecodedPayload :=
  mkPayload (Some "ann@example.org") verified [("sub", "1084")].

(** A stored, still valid refresh token of Ann, and an older inactive one. *)
Definition row_old : RefreshToken :=
  mkRefreshToken 1 1 "rt-old" GoogleSSO 500 (Some 90) false.
Definition row_cur : RefreshToken :=
  mkRefreshToken 2 1 "rt-cur" GoogleSSO 5000 None true.

Definition w0 : World :=
  mkWorld [ann] [row_old; row_cur] {[ 1 := false ]} [] [] [] 1000 [].

(** A second user, whose stored token the provider answers with an id
    token of Ann. *)
Definition bob : User := mkUser 2 (Some "bob@example.org") [].
Definition row_bob : RefreshToken :=
  mkRefreshToken 3 2 "rt-bob" GoogleSSO 5000 None true.
Definition w_two : World :=
  mkWorld [ann; bob] [row_old; row_cur; row_bob] {[ 1 := false ]} [] [] [] 1000 [].

(** A world in which nobody is registered yet. *)
Definition w_empty : World := mkWorld [] [] ∅ [] [] [] 1000 [].

Definition no_faults : Site -> option Exn := fun _ => None.

Definition fault_at (s : Site) (e : Exn) : Site -> option Exn :=
  fun s' => if decide (s' = s) then Some e else None.

(** A provider that answers every refresh with [ts]. *)
Definition env_with (answer : Outcome (option TokenSet)) (verified : bool)
    (faults : Site -> option Exn) : Env :=
  mkEnv (fun _ => answer) (fun _ => Returned tt)
    (fun t => match t with
              | Some _ => Some (mkDecoded (ann_payload verified))
              | None => None
              end)
    (fun u _ => "jwt-for-" ++ default "" (user_email u)) 900 2592000 faults.

Definition ts_plain : TokenSet := mkTokenSet (Some "ya29.a") None (Some "id.a").
Definition ts_rotating : TokenSet := mkTokenSet (Some "ya29.b") (Some "rt-new") (Some "id.b").

Definition env_ok : Env := env_with (Returned (Some ts_plain)) false no_faults.
Definition env_rotating : Env := env_with (Returned (Some ts_rotating)) true no_faults.
Definition env_down : Env := env_with (Thrown (JsError "ECONNREFUSED")) false no_faults.
Definition env_jwt_fails : Env :=
  env_with (Returned (Some ts_plain)) false
    (fault_at Log_generateJwtToken (JsError "secretOrPrivateKey must have a value")).

End Samples.

Module EmailSamples.
Import EmailService.

(** A configuration without [FRONTEND_URL], and an SES that is down. *)
Definition env_ses_down : Env :=
  mkEnv (fun k => if String.eqb k "AWS_SES_SENDER_EMAIL"
                  then Some "no-reply@example.org" else None)
    "FRONTEND_URL" "AWS_SES_SENDER_EMAIL"
    (fun _ => Thrown (JsError "Throttling")).

End EmailSamples.

Module StatisticsSamples.
Import StatisticsEffect.

Definition effects0 : list Effect :=
  [mkEffect "2024-01" 1 1 0 (Some "P-7") (Some 7);
   mkEffect "2024-01" 0 0 0 None None;
   mkEffect "2024-03" 1 0 1 (Some "") (Some 9)].

(** Three months, of which the second has no effect; percentages are
    rounded up in whole numbers here. *)
Definition deps0 : Deps :=
  mkDeps (fun _ => Returned ([1], []))
    (fun i => (dateFrom i, dateTo i))
    (fun _ => Returned effects0)
    [11; 12]
    (fun _ _ _ => ["2024-01"; "2024-02"; "2024-03"])
    (fun ds _ => ds)
    (fun a b => Z.of_nat (Nat.div (a * 100 + b - 1) b)).

Definition input0 : StatisticsFilterInput :=
  mkInput [] [] [] [] [] [] [] "MONTHLY" "2024-01-01" "2024-03-31".

End StatisticsSamples.

Module MiddlewareSamples.
Import SessionMiddleware.

(** Helpers that read the session of a user from the cookie [sid] and the
    session of a patient from the cookie [psid]. *)
Definition helpers (fetch : string -> option QueryData * option Exn) : Helpers :=
  mkHelpers fetch
    (fun q => mkCookie "psid" <$> cookies q !! "psid")
    (fun q => match cookies q !! "sid" with
              | Some v => [mkCookie "sid" v]
              | None => []
              end)
    (fun _ _ r => r)
    (fun l => String.append "/" l)
    (fun _ => "en")
    (fun p => p)
    (fun m => match m with
              | User l _ => String.append "user:" l
              | Patient _ => "patient"
              end).

Definition dr_strange : ActorResponse :=
  mkActor (Some (User "nb" [("email", "strange@example.org")])) "sid=s3cr3t" "tok-9".

Definition h_user : Helpers := helpers (fun _ => (Some (mkData (Some dr_strange)), None)).
Definition h_error : Helpers := helpers (fun _ => (None, Some (JsError "fetch failed"))).
Definition h_no_actor : Helpers := helpers (fun _ => (Some (mkData None), None)).

(** A request that still carries the cookies of an earlier session. *)
Definition req_stale : NextRequest :=
  mkRequest {[ "logged-user" := "user:en"; "authToken" := "tok" ]}
    {[ "cookie" := "logged-user=user:en; authToken=tok" ]} "/en/home".

(** A first request of a session: the session cookie, and nothing else. *)
Definition req_new : NextRequest :=
  mkRequest {[ "sid" := "s3cr3t" ]} {[ "cookie" := "sid=s3cr3t" ]} "/en/home".

(** A request whose session has been fetched within the last minute. *)
Definition req_hit : NextRequest :=
  mkRequest {[ "sid" := "s3cr3t"; "user-sid" := "s3cr3t" ]}
    {[ "cookie" := "sid=s3cr3t; user-sid=s3cr3t" ]} "/en/home".

End MiddlewareSamples.

Module AuthContextSamples.
Import AuthContext.

Definition has_role (rs allowed : list Role) : bool :=
  existsb (fun r => existsb (String.eqb r) allowed) rs.

Definition admins : list Role := ["customer-admin"].

Definition dr_who : User := mkUser ["customer-admin"] [("email", "who@example.org")].
Definition patient7 : AuthPatient := mkAuthPatient 7 "P-7" "tok-7".

(** A request on which both a user and a patient are attached. *)
Definition req_both : ExtendedRequest :=
  mkExtendedRequest (Some dr_who) (Some patient7) (Some "sid=abc")
    (Some {[ "windowId" := JsString "w1" ]})
    {[ "accept-language" := "en"; "origin" := "https://app.example.org";
       "x-page-url" := "https://app.example.org/en/patients" ]}.

Definition req_patient_only : ExtendedRequest :=
  mkExtendedRequest None (Some patient7) None None ∅.

Definition req_nobody : ExtendedRequest :=
  mkExtendedRequest None None None None ∅.

(** A subscription whose client sent a number as [windowId]. *)
Definition req_bad_window : ExtendedRequest :=
  mkExtendedRequest (Some dr_who) None None (Some {[ "windowId" := JsNumber 42 ]}) ∅.

End AuthContextSamples.

(** * Properties of the Google SSO service *)
Section GoogleSsoFacts.
Import GoogleSso.
Local Open Scope list_scope.

(** How a run ends, and the state it ends in. *)
Definition result {S A} (x : Outcome A * S) : Outcome A := fst x.
Definition final {S A} (x : Outcome A * S) : S := snd x.



Ltac unfold_service :=
  unfold googleLogin, googleLogin_frame, refreshGoogleAccessToken,
    createGoogleSsoUser, revokeRefreshToken, createGoogleSso, generateJwtToken,
    lift, set_userId, call_, query, call, refresh, revoke, try_catch, bind, ret,
    throw, get, modify, result, final; simpl.

Ltac head_scrutinee t :=
  lazymatch t with
  | context [match ?x with _ => _ end] => head_scrutinee x
  | _ => t
  end.

(** One step of the run: a case distinction on what the next call does. *)
Ltac step :=
  match goal with
  | |- context [match ?x with _ => _ end] =>
      let y := head_scrutinee x in destruct y eqn:?; simpl in *
  end.

Lemma rt_id_deactivate uid l :
  map rt_id (map (deactivate_row uid) l) = map rt_id l.
Proof.
  induction l as [|r l IH]; simpl; [reflexivity|].
  rewrite IH. unfold deactivate_row. destruct (rt_user_id r =? uid); reflexivity.
Qed.

Lemma fresh_token_id_deactivate uid w :
  fresh_token_id (deactivateRefreshTokens uid w) = fresh_token_id w.
Proof. unfold fresh_token_id. simpl. rewrite rt_id_deactivate. reflexivity. Qed.

(** No internal exception leaves [googleLogin] while the failure record can
    be written. *)
Lemma googleLogin_throws_only_GoogleAuthFailed env g rt info w e :
  raised env Log_logFailure = None ->
  result (googleLogin env g rt info w) = Thrown e ->
  e = GoogleAuthFailedException.
Proof.
  intros HF. unfold_service. rewrite HF.
  repeat step; congruence.
Qed.



(** C1: the code breaks the claim. For a registered user, when minting the
    access token throws, the Success record has already been written inside
    the same [try] block; the [catch] block then writes a Failure record as
    well and throws GoogleAuthFailedException, so this one attempt leaves two
    audit records, not exactly one. *)
Lemma googleLogin_two_audit_records :
  let run := googleLogin Samples.env_jwt_fails (Samples.ann_google false) "rt-1"
               Samples.info0 Samples.w0 in
  result run = Thrown GoogleAuthFailedException /\
  auth_log (final run) =
    auth_log Samples.w0 ++
    [success_event Samples.ann Samples.info0 (Some 3);
     failure_event false (Some 1) Samples.info0] /\
  ~ (exists ev, auth_log (final run) = auth_log Samples.w0 ++ [ev]).
Proof.
  vm_compute. split; [reflexivity|]. split; [reflexivity|].
  intros [ev H]. discriminate H.
Qed.

(** *** Refreshing an access token *)

Lemma rt_user_id_deactivate uid r :
  rt_user_id (deactivate_row uid r) = rt_user_id r.
Proof. unfold deactivate_row. destruct (rt_user_id r =? uid); reflexivity. Qed.

Lemma deactivate_row_inactive uid r :
  (rt_user_id (deactivate_row uid r) =? uid) && is_active (deactivate_row uid r) = false.
Proof.
  unfold deactivate_row. destruct (rt_user_id r =? uid) eqn:E; simpl; rewrite E; reflexivity.
Qed.

Lemma deactivate_row_other uid r :
  rt_user_id r <> uid -> deactivate_row uid r = r.
Proof.
  intros Hne. unfold deactivate_row.
  destruct (rt_user_id r =? uid) eqn:E; [apply Z.eqb_eq in E; contradiction|reflexivity].
Qed.

Lemma active_tokens_deactivate uid w :
  active_tokens uid (deactivateRefreshTokens uid w) = [].
Proof.
  unfold active_tokens, deactivateRefreshTokens. simpl.
  induction (refresh_tokens w) as [|r l IH]; simpl; [reflexivity|].
  rewrite deactivate_row_inactive. exact IH.
Qed.

Lemma active_tokens_deactivate_other uid uid' w :
  uid' <> uid ->
  active_tokens uid' (deactivateRefreshTokens uid w) = active_tokens uid' w.
Proof.
  intros Hne. unfold active_tokens, deactivateRefreshTokens. simpl.
  induction (refresh_tokens w) as [|r l IH]; simpl; [reflexivity|].
  rewrite IH, rt_user_id_deactivate.
  destruct (rt_user_id r =? uid') eqn:E; simpl; [|reflexivity].
  apply Z.eqb_eq in E.
  rewrite deactivate_row_other by congruence. reflexivity.
Qed.

(** C2: a refresh with a token that has expired deactivates every refresh
    token of the user and fails with ExpiredRefreshTokenException, whatever
    the identity provider would have answered: no request is sent to it, and
    the user is left without an active token. *)
Theorem refresh_expired_deactivates_all env tok uid w :
  raised env Ref_deactivateExpired = None ->
  expires_on tok < now w ->
  let run := refreshGoogleAccessToken env tok uid w in
  result run = Thrown ExpiredRefreshTokenException /\
  final run = deactivateRefreshTokens uid w /\
  google_calls (final run) = google_calls w /\
  active_tokens uid (final run) = [].
Proof.
  intros HD Hexp. apply Z.ltb_lt in Hexp.
  unfold_service. rewrite Hexp. simpl. rewrite HD. simpl.
  repeat split. apply active_tokens_deactivate.
Qed.

Lemma refresh_expired_deactivates_all_witness :
  raised Samples.env_down Ref_deactivateExpired = None /\
  expires_on Samples.row_old < now Samples.w0 /\
  let run := refreshGoogleAccessToken Samples.env_down Samples.row_old 1 Samples.w0 in
  result run = Thrown ExpiredRefreshTokenException /\
  final run = deactivateRefreshTokens 1 Samples.w0 /\
  google_calls (final run) = google_calls Samples.w0 /\
  active_tokens 1 (final run) = [].
Proof.
  split; [reflexivity|]. split; [reflexivity|].
  apply (refresh_expired_deactivates_all Samples.env_down Samples.row_old 1 Samples.w0);
    reflexivity.
Defined.

(** The provider did not hand out an access token: it threw, answered
    nothing, or answered without a non-empty [access_token]. *)
Definition no_access_token (o : Outcome (option TokenSet)) : bool :=
  match o with
  | Thrown _ => true
  | Returned None => true
  | Returned (Some ts) => negb (truthy (access_token ts))
  end.

(** C9: on the path of a token that has not expired the provider is asked
    first; when it throws or answers without an access token, the call fails
    and nothing was written: the stored refresh tokens, their active flags
    and their last-used timestamps are as before. *)
Theorem refresh_provider_failure_keeps_tokens env tok uid w :
  now w <= expires_on tok ->
  no_access_token (googleClient_refresh env (token tok)) = true ->
  let run := refreshGoogleAccessToken env tok uid w in
  (exists e, result run = Thrown e) /\
  final run = record_call (Refresh (token tok)) w /\
  refresh_tokens (final run) = refresh_tokens w /\
  (forall u, active_tokens u (final run) = active_tokens u w).
Proof.
  intros Hlive Hfail. apply Z.ltb_ge in Hlive.
  unfold no_access_token in Hfail.
  unfold_service. rewrite Hlive. simpl.
  destruct (googleClient_refresh env (token tok)) as [[ts|]|e]; simpl.
  - rewrite Hfail. simpl. eauto.
  - eauto.
  - destruct (passes_through e); simpl; eauto.
Qed.

Lemma refresh_provider_failure_keeps_tokens_witness :
  now Samples.w0 <= expires_on Samples.row_cur /\
  no_access_token (googleClient_refresh Samples.env_down (token Samples.row_cur)) = true /\
  let run := refreshGoogleAccessToken Samples.env_down Samples.row_cur 1 Samples.w0 in
  (exists e, result run = Thrown e) /\
  final run = record_call (Refresh (token Samples.row_cur)) Samples.w0 /\
  refresh_tokens (final run) = refresh_tokens Samples.w0 /\
  (forall u, active_tokens u (final run) = active_tokens u Samples.w0).
Proof.
  split; [vm_compute; discriminate|]. split; [reflexivity|].
  apply (refresh_provider_failure_keeps_tokens Samples.env_down Samples.row_cur 1
           Samples.w0); [vm_compute; discriminate | reflexivity].
Defined.



Lemma touch_row_user t n r : rt_user_id (touch_row t n r) = rt_user_id r.
Proof. unfold touch_row. destruct (token r =? t)%string; reflexivity. Qed.

Lemma touch_row_active t n r : is_active (touch_row t n r) = is_active r.
Proof. unfold touch_row. destruct (token r =? t)%string; reflexivity. Qed.

Lemma touch_row_id t n r : rt_id (touch_row t n r) = rt_id r.
Proof. unfold touch_row. destruct (token r =? t)%string; reflexivity. Qed.

Lemma touch_row_last_used t n r :
  token r = t -> last_used_on (touch_row t n r) = Some n.
Proof. intros <-. unfold touch_row. rewrite String.eqb_refl. reflexivity. Qed.

Lemma deactivate_row_last_used uid r :
  last_used_on (deactivate_row uid r) = last_used_on r.
Proof. unfold deactivate_row. destruct (rt_user_id r =? uid); reflexivity. Qed.

Lemma deactivate_row_id uid r : rt_id (deactivate_row uid r) = rt_id r.
Proof. unfold deactivate_row. destruct (rt_user_id r =? uid); reflexivity. Qed.

Lemma active_tokens_touch uid t w :
  active_tokens uid (updateLastUsedOn t w) =
  map (touch_row t (now w)) (active_tokens uid w).
Proof.
  unfold active_tokens, updateLastUsedOn. simpl.
  induction (refresh_tokens w) as [|r l IH]; simpl; [reflexivity|].
  rewrite touch_row_user, touch_row_active, IH.
  destruct ((rt_user_id r =? uid) && is_active r); reflexivity.
Qed.

Lemma fresh_token_id_touch t w :
  fresh_token_id (updateLastUsedOn t w) = fresh_token_id w.
Proof.
  unfold fresh_token_id, updateLastUsedOn. simpl. f_equal. f_equal.
  induction (refresh_tokens w) as [|r l IH]; simpl; [reflexivity|].
  rewrite touch_row_id, IH. reflexivity.
Qed.

(** After a rotation (deactivate everything, then store) the stored row is
    the only active row of the user. *)
Lemma active_tokens_rotate lifetime uid t m w :
  active_tokens uid
    (snd (createRefreshToken lifetime uid t m (deactivateRefreshTokens uid w))) =
  [mkRefreshToken (fresh_token_id w) uid t m (now w + lifetime) None true].
Proof.
  unfold active_tokens. simpl. rewrite List.filter_app.
  change (List.filter _ (map (deactivate_row uid) (refresh_tokens w)))
    with (active_tokens uid (deactivateRefreshTokens uid w)).
  rewrite active_tokens_deactivate. simpl.
  rewrite Z.eqb_refl. simpl.
  rewrite fresh_token_id_deactivate. reflexivity.
Qed.

Lemma active_rows_touch uid t n l :
  List.filter (fun r => (rt_user_id r =? uid) && is_active r) (map (touch_row t n) l) =
  map (touch_row t n) (List.filter (fun r => (rt_user_id r =? uid) && is_active r) l).
Proof.
  induction l as [|r l IH]; simpl; [reflexivity|].
  rewrite touch_row_user, touch_row_active, IH.
  destruct ((rt_user_id r =? uid) && is_active r); reflexivity.
Qed.

Lemma active_rows_rotate uid l row :
  rt_user_id row = uid -> is_active row = true ->
  List.filter (fun r => (rt_user_id r =? uid) && is_active r)
    (map (deactivate_row uid) l ++ [row]) = [row].
Proof.
  intros Hu Ha. rewrite List.filter_app. simpl. rewrite Hu, Z.eqb_refl, Ha. simpl.
  replace (List.filter _ (map (deactivate_row uid) l)) with (@nil RefreshToken);
    [reflexivity|].
  induction l as [|r l IH]; simpl; [reflexivity|].
  rewrite deactivate_row_inactive. exact IH.
Qed.

Lemma stamped_row_kept uid t n l extra r :
  In r l -> token r = t ->
  exists r', In r' (map (deactivate_row uid) (map (touch_row t n) l) ++ extra) /\
             rt_id r' = rt_id r /\ last_used_on r' = Some n.
Proof.
  intros Hin Ht. exists (deactivate_row uid (touch_row t n r)). split; [|split].
  - apply in_or_app. left. apply in_map, in_map, Hin.
  - rewrite deactivate_row_id, touch_row_id. reflexivity.
  - rewrite deactivate_row_last_used. apply touch_row_last_used, Ht.
Qed.

Lemma stamped_row n t l r :
  In r l -> token r = t ->
  exists r', In r' (map (touch_row t n) l) /\
             rt_id r' = rt_id r /\ last_used_on r' = Some n.
Proof.
  intros Hin Ht. exists (touch_row t n r). split; [|split].
  - apply in_map, Hin.
  - apply touch_row_id.
  - apply touch_row_last_used, Ht.
Qed.

(** The email by which [refreshGoogleAccessToken] looks the user up:
    [decodedToken?.payload?.email]. *)
Definition decoded_email (env : Env) (ts : TokenSet) : option string :=
  match jwt_decode env (id_token ts) with
  | Some d => email (payload d)
  | None => None
  end.

(** C4: a refresh that succeeds has stamped the rows of the token it used
    with the current time. When the provider issued a new refresh token, the
    tokens of the user were deactivated, the new one was stored and is
    returned, and it is the user's only active token. When the provider
    issued none, the [refreshToken] field of the result is undefined, no row
    was added and no active flag changed. *)
Theorem refresh_success env tok uid w toks :
  result (refreshGoogleAccessToken env tok uid w) = Returned toks ->
  let w' := final (refreshGoogleAccessToken env tok uid w) in
  exists ts u,
    googleClient_refresh env (token tok) = Returned (Some ts) /\
    getUserByEmail (decoded_email env ts) w = Some u /\
    accessToken toks = jwt_sign env u (ACCESS_TOKEN_EXPIRATION_SECONDS env) /\
    (forall r, In r (refresh_tokens w) -> token r = token tok ->
       exists r', In r' (refresh_tokens w') /\ rt_id r' = rt_id r /\
                  last_used_on r' = Some (now w)) /\
    match refresh_token ts with
    | Some t =>
        if truthy (Some t)
        then
          let row := mkRefreshToken (fresh_token_id w) (user_id u) t GoogleSSO
                       (now w + REFRESH_TOKEN_LIFETIME env) None true in
          refreshToken toks = Some t /\
          refresh_tokens w' =
            map (deactivate_row (user_id u))
              (map (touch_row (token tok) (now w)) (refresh_tokens w)) ++ [row] /\
          active_tokens (user_id u) w' = [row]
        else
          refreshToken toks = None /\
          refresh_tokens w' = map (touch_row (token tok) (now w)) (refresh_tokens w) /\
          (forall v, active_tokens v w' =
                     map (touch_row (token tok) (now w)) (active_tokens v w))
    | None =>
        refreshToken toks = None /\
        refresh_tokens w' = map (touch_row (token tok) (now w)) (refresh_tokens w) /\
        (forall v, active_tokens v w' =
                   map (touch_row (token tok) (now w)) (active_tokens v w))
    end.
Proof.
  unfold decoded_email. unfold_service.
  repeat step; intros H; inversion H; subst; simpl;
    eexists; eexists; (split; [reflexivity|]);
    match goal with E : jwt_decode _ _ = _ |- _ => rewrite E end;
    (split; [eassumption|]); (split; [reflexivity|]);
    rewrite ?fresh_token_id_deactivate, ?fresh_token_id_touch;
    change (fresh_token_id (record_call _ w)) with (fresh_token_id w);
    (split; [intros r Hin Ht; first [apply stamped_row_kept | apply stamped_row]; assumption|]);
    repeat match goal with E : refresh_token _ = _ |- _ => rewrite E; clear E end;
    simpl;
    repeat match goal with E : negb _ = _ |- _ => rewrite E; clear E end;
    unfold active_tokens; simpl;
    (split; [reflexivity|]); (split; [reflexivity|]);
    first [ apply active_rows_rotate; reflexivity
          | intros v; apply active_rows_touch ].
Qed.

Lemma refresh_success_witness :
  let run := refreshGoogleAccessToken Samples.env_rotating Samples.row_cur 1 Samples.w0 in
  result run = Returned (mkAuthTokens "jwt-for-ann@example.org" (Some "rt-new")) /\
  active_tokens 1 (final run) =
    [mkRefreshToken 3 1 "rt-new" GoogleSSO (1000 + 2592000) None true].
Proof.
  split; [reflexivity|].
  destruct (refresh_success Samples.env_rotating Samples.row_cur 1 Samples.w0
              (mkAuthTokens "jwt-for-ann@example.org" (Some "rt-new")) eq_refl)
    as (ts & u & Hts & Hu & _ & _ & Hrot).
  vm_compute in Hts. inversion Hts; subst ts.
  vm_compute in Hu. inversion Hu; subst u.
  exact (proj2 (proj2 Hrot)).
Defined.

(** *** Logging in *)

Lemma getUserByEmail_users e w1 w2 :
  users w1 = users w2 -> getUserByEmail e w1 = getUserByEmail e w2.
Proof. intros H. unfold getUserByEmail. rewrite H. reflexivity. Qed.

(** [googleLogin] never registers or changes a user. *)
Lemma googleLogin_users env g rt info w :
  users (final (googleLogin env g rt info w)) = users w.
Proof. unfold_service. repeat step; reflexivity. Qed.

(** What [googleLogin] can have done to the refresh tokens: nothing, a
    deactivation of the tokens of the user, or a full rotation. *)
Lemma googleLogin_tokens env g rt info w :
  let l' := refresh_tokens (final (googleLogin env g rt info w)) in
  l' = refresh_tokens w \/
  exists u, getUserByEmail (gu_email g) w = Some u /\
    (l' = map (deactivate_row (user_id u)) (refresh_tokens w) \/
     l' = map (deactivate_row (user_id u)) (refresh_tokens w) ++
          [mkRefreshToken (fresh_token_id w) (user_id u) rt GoogleSSO
             (now w + REFRESH_TOKEN_LIFETIME env) None true]).
Proof.
  unfold_service.
  repeat step; rewrite ?fresh_token_id_deactivate; eauto.
Qed.

(** A login that succeeds with a non-empty refresh token has rotated: the
    token it stored is the only active token of the user. *)
Lemma googleLogin_rotates env g rt info w a u :
  result (googleLogin env g rt info w) = Returned a ->
  getUserByEmail (gu_email g) w = Some u ->
  rt <> "" ->
  active_tokens (user_id u) (final (googleLogin env g rt info w)) =
    [mkRefreshToken (fresh_token_id w) (user_id u) rt GoogleSSO
       (now w + REFRESH_TOKEN_LIFETIME env) None true].
Proof.
  intros Hr Hu Hrt. revert Hr.
  assert (Hne : negb (rt =? "")%string = true).
  { destruct (rt =? "")%string eqn:E; [apply String.eqb_eq in E; contradiction|reflexivity]. }
  unfold_service. rewrite Hu, Hne. simpl.
  repeat step; intros H; try discriminate H;
    unfold active_tokens; simpl;
    rewrite ?fresh_token_id_deactivate;
    apply active_rows_rotate; reflexivity.
Qed.

Lemma active_rows_other uid v l row :
  v <> uid -> rt_user_id row = uid ->
  List.filter (fun r => (rt_user_id r =? v) && is_active r)
    (map (deactivate_row uid) l ++ [row]) =
  List.filter (fun r => (rt_user_id r =? v) && is_active r) l.
Proof.
  intros Hne Hu. rewrite List.filter_app. simpl. rewrite Hu.
  destruct (uid =? v) eqn:E; [apply Z.eqb_eq in E; congruence|]. simpl.
  rewrite app_nil_r.
  induction l as [|r l IH]; simpl; [reflexivity|].
  rewrite IH, rt_user_id_deactivate.
  destruct (rt_user_id r =? v) eqn:E'; simpl; [|reflexivity].
  apply Z.eqb_eq in E'. rewrite deactivate_row_other by congruence. reflexivity.
Qed.

(** Whatever happens during a login, a user who had at most one active
    refresh token has at most one afterwards. *)
Lemma googleLogin_keeps_single_active env g rt info w v :
  (length (active_tokens v w) <= 1)%nat ->
  (length (active_tokens v (final (googleLogin env g rt info w))) <= 1)%nat.
Proof.
  intros Hone. unfold active_tokens in *.
  destruct (googleLogin_tokens env g rt info w) as [-> | (u & _ & [-> | ->])].
  - exact Hone.
  - destruct (Z.eq_dec v (user_id u)) as [->|Hne].
    + change (length (active_tokens (user_id u)
                (deactivateRefreshTokens (user_id u) w)) <= 1)%nat.
      rewrite active_tokens_deactivate. simpl. lia.
    + change (length (active_tokens v (deactivateRefreshTokens (user_id u) w)) <= 1)%nat.
      rewrite active_tokens_deactivate_other by assumption. exact Hone.
  - destruct (Z.eq_dec v (user_id u)) as [->|Hne].
    + rewrite active_rows_rotate by reflexivity. simpl. lia.
    + rewrite active_rows_other by (assumption || reflexivity). exact Hone.
Qed.

(** C7: after two logins of a user in a row, each with a non-empty refresh
    token, the user has exactly one active refresh token, the second one, and
    the first one is no longer active; no login lets a user end up with more
    than one active token. *)
Theorem googleLogin_twice_one_active_token
    env1 env2 g1 g2 rt1 rt2 info1 info2 w a1 a2 u :
  getUserByEmail (gu_email g1) w = Some u ->
  gu_email g2 = gu_email g1 ->
  rt1 <> "" -> rt2 <> "" -> rt1 <> rt2 ->
  let run1 := googleLogin env1 g1 rt1 info1 w in
  let run2 := googleLogin env2 g2 rt2 info2 (final run1) in
  result run1 = Returned a1 ->
  result run2 = Returned a2 ->
  (exists row1, active_tokens (user_id u) (final run1) = [row1] /\ token row1 = rt1) /\
  (exists row2, active_tokens (user_id u) (final run2) = [row2] /\ token row2 = rt2) /\
  (forall r, In r (refresh_tokens (final run2)) ->
             rt_user_id r = user_id u -> token r = rt1 -> is_active r = false) /\
  (forall v, (length (active_tokens v w) <= 1)%nat ->
             (length (active_tokens v (final run2)) <= 1)%nat).
Proof.
  intros Hu Hg Hrt1 Hrt2 Hne run1 run2 Hr1 Hr2.
  assert (Hu2 : getUserByEmail (gu_email g2) (final run1) = Some u).
  { rewrite Hg, <- Hu. apply getUserByEmail_users, googleLogin_users. }
  pose proof (googleLogin_rotates _ _ _ _ _ _ _ Hr1 Hu Hrt1) as A1.
  pose proof (googleLogin_rotates _ _ _ _ _ _ _ Hr2 Hu2 Hrt2) as A2.
  fold run1 in A1. fold run2 in A2.
  split; [eexists; split; [exact A1|reflexivity]|].
  split; [eexists; split; [exact A2|reflexivity]|].
  split.
  - intros r Hin Hru Htok.
    destruct (is_active r) eqn:Ha; [|reflexivity].
    assert (Hmem : In r (active_tokens (user_id u) (final run2))).
    { unfold active_tokens. apply List.filter_In. split; [exact Hin|].
      rewrite Hru, Z.eqb_refl, Ha. reflexivity. }
    rewrite A2 in Hmem. destruct Hmem as [<-|[]]. simpl in Htok. congruence.
  - intros v Hone. apply googleLogin_keeps_single_active,
      googleLogin_keeps_single_active, Hone.
Qed.

Lemma googleLogin_twice_one_active_token_witness :
  let run1 := googleLogin Samples.env_ok (Samples.ann_google false) "rt-1"
                Samples.info0 Samples.w0 in
  let run2 := googleLogin Samples.env_ok (Samples.ann_google false) "rt-2"
                Samples.info0 (final run1) in
  exists row2, active_tokens 1 (final run2) = [row2] /\ token row2 = "rt-2".
Proof.
  exact (proj1 (proj2
    (googleLogin_twice_one_active_token Samples.env_ok Samples.env_ok
       (Samples.ann_google false) (Samples.ann_google false) "rt-1" "rt-2"
       Samples.info0 Samples.info0 Samples.w0
       "jwt-for-ann@example.org" "jwt-for-ann@example.org" Samples.ann
       eq_refl eq_refl ltac:(discriminate) ltac:(discriminate) ltac:(discriminate)
       eq_refl eq_refl))).
Defined.

(** *** Email verification *)

Lemma isEmailVerified_mark u v w :
  isEmailVerified v w = true -> isEmailVerified v (markEmailVerified u w) = true.
Proof.
  unfold isEmailVerified, markEmailVerified. simpl. intros H.
  destruct (decide (u = v)) as [->|Hne].
  - rewrite lookup_insert_eq. reflexivity.
  - rewrite lookup_insert_ne by assumption. exact H.
Qed.

Lemma isEmailVerified_mark_same u w :
  isEmailVerified u (markEmailVerified u w) = true.
Proof.
  unfold isEmailVerified, markEmailVerified. simpl.
  rewrite lookup_insert_eq. reflexivity.
Qed.

Lemma isEmailVerified_create_same u w :
  isEmailVerified u (createUserVerification u w) = false.
Proof.
  unfold isEmailVerified, createUserVerification. simpl.
  rewrite lookup_insert_eq. reflexivity.
Qed.





(** * Further properties of the Google SSO service *)

(** ** What is kept of the provider payload *)

Definition has_key (k : string) (j : Json) : Prop := In k (map fst j).

Lemma delete_access_token_spec j k v :
  In (k, v) (delete_access_token j) <-> In (k, v) j /\ k <> "access_token".
Proof.
  unfold delete_access_token. rewrite List.filter_In. simpl.
  destruct (k =? "access_token")%string eqn:E; simpl.
  - apply String.eqb_eq in E. split; [intros [_ H]; discriminate H|].
    intros [_ H]. contradiction.
  - apply String.eqb_neq in E. split; intros [H _]; auto.
Qed.

(** The record [createGoogleSso] hands to the repository carries no
    [access_token] and every other property of the payload, in order;
    stripping a stripped payload changes nothing. *)
Theorem createGoogleSso_strips_access_token env s uid g raw w :
  raised env s = None ->
  let run := createGoogleSso env s uid g raw w in
  let stored := delete_access_token raw in
  result run = Returned tt /\
  google_sso (final run) = google_sso w ++ [(uid, g, stored)] /\
  ~ has_key "access_token" stored /\
  (forall k v, k <> "access_token" -> (In (k, v) stored <-> In (k, v) raw)) /\
  stored = List.filter (fun kv => negb (fst kv =? "access_token")%string) raw /\
  delete_access_token stored = stored.
Proof.
  intros Hs. cbv zeta. unfold_service. rewrite Hs. simpl.
  split; [reflexivity|]. split; [reflexivity|]. split; [|split; [|split]].
  - unfold has_key. rewrite in_map_iff. intros ([k v] & Hk & Hin). simpl in Hk. subst k.
    apply delete_access_token_spec in Hin. destruct Hin as [_ Hne]. contradiction.
  - intros k v Hne. rewrite delete_access_token_spec. tauto.
  - reflexivity.
  - unfold delete_access_token.
    induction raw as [|[k v] raw IH]; simpl; [reflexivity|].
    destruct (k =? "access_token")%string eqn:E; simpl; [exact IH|].
    rewrite E. simpl. f_equal. exact IH.
Qed.

Lemma createGoogleSso_strips_access_token_witness :
  let run := createGoogleSso Samples.env_ok Log_createGoogleSso 1
               (Samples.ann_google true) (stringify (Samples.ann_google true))
               Samples.w0 in
  google_sso (final run) =
    [(1, Samples.ann_google true,
      [("email", "ann@example.org"); ("emailVerified", "true"); ("sub", "1084")])].
Proof.
  exact (proj1 (proj2
    (createGoogleSso_strips_access_token Samples.env_ok Log_createGoogleSso 1
       (Samples.ann_google true) (stringify (Samples.ann_google true)) Samples.w0
       eq_refl))).
Defined.

(** The JSON column of no provider-linkage record has an [access_token]
    property. The DTO stored next to it is not looked at: the service hands
    it to the repository as it received it. *)
Definition no_access_token_in_raw_json (w : World) : Prop :=
  Forall (fun rec => ~ has_key "access_token" (snd rec)) (google_sso w).

Lemma no_access_token_in_raw_json_add uid g raw w :
  no_access_token_in_raw_json w ->
  Forall (fun rec => ~ has_key "access_token" (snd rec))
    (google_sso w ++ [(uid, g, delete_access_token raw)]).
Proof.
  intros H. apply Forall_app. split; [exact H|].
  constructor; [|constructor]. simpl. unfold has_key.
  rewrite in_map_iff. intros ([k v] & Hk & Hin). simpl in Hk. subst k.
  apply delete_access_token_spec in Hin. destruct Hin as [_ Hne]. contradiction.
Qed.

(** The raw JSON kept with the provider-linkage records never holds an
    access token: a login, a registration and a refresh each keep the JSON
    column of every record free of [access_token], however the run ends.
    This is a fact about the JSON column only. The record a login or a
    registration adds carries, next to the stripped JSON, the DTO exactly as
    the service had it, with whatever properties it holds. *)
Theorem raw_json_never_holds_access_token env w :
  no_access_token_in_raw_json w ->
  (forall g rt info,
      let w' := final (googleLogin env g rt info w) in
      no_access_token_in_raw_json w' /\
      (google_sso w' = google_sso w \/
       exists u, google_sso w' =
                   google_sso w ++ [(user_id u, g, delete_access_token (stringify g))])) /\
  (forall rt info,
      let w' := final (createGoogleSsoUser env rt info w) in
      no_access_token_in_raw_json w' /\
      (google_sso w' = google_sso w \/
       exists uid d,
         google_sso w' =
           google_sso w ++
           [(uid, plainToClass (payload d),
             delete_access_token (stringify (plainToClass (payload d))))])) /\
  (forall tok uid,
      google_sso (final (refreshGoogleAccessToken env tok uid w)) = google_sso w).
Proof.
  intros Hw. split; [|split].
  - intros g rt info. cbv zeta. unfold no_access_token_in_raw_json. unfold_service.
    repeat step;
      (split; [first [exact Hw | apply no_access_token_in_raw_json_add, Hw]
              |first [left; reflexivity | right; eexists; reflexivity]]).
  - intros rt info. cbv zeta. unfold no_access_token_in_raw_json. unfold_service.
    repeat step;
      (split; [first [exact Hw | apply no_access_token_in_raw_json_add, Hw]
              |first [left; reflexivity | right; eexists; eexists; reflexivity]]).
  - intros tok uid. unfold_service. repeat step; reflexivity.
Qed.

(** Ann logs in with a DTO that carries an access token: the JSON column of
    the new record is free of it. *)
Lemma raw_json_never_holds_access_token_witness :
  no_access_token_in_raw_json
    (final (googleLogin Samples.env_ok (Samples.ann_google true) "rt-1"
              Samples.info0 Samples.w0)).
Proof.
  exact (proj1 (proj1 (raw_json_never_holds_access_token Samples.env_ok Samples.w0
                         (List.Forall_nil _))
                  (Samples.ann_google true) "rt-1" Samples.info0)).
Defined.

(** ** Revoking *)

(** [revokeRefreshToken] sends one revoke request and touches nothing that is
    stored; it returns when the provider does, passes an
    InvalidRefreshTokenException on and turns every other exception into
    UnexpectedErrorWhenLoggingOutException. *)
Theorem revokeRefreshToken_outcome env t w :
  let run := revokeRefreshToken env t w in
  final run = record_call (Revoke t) w /\
  refresh_tokens (final run) = refresh_tokens w /\
  (forall u, googleClient_revoke env t = Returned u -> result run = Returned u) /\
  (forall e, googleClient_revoke env t = Thrown e ->
     result run = Thrown (if decide (e = InvalidRefreshTokenException)
                          then InvalidRefreshTokenException
                          else UnexpectedErrorWhenLoggingOutException)).
Proof.
  cbv zeta. unfold_service.
  destruct (googleClient_revoke env t) as [[]|e] eqn:E; simpl.
  - repeat split; intros ? H; inversion H; reflexivity.
  - destruct e; simpl; repeat split; intros ? H; inversion H; subst; reflexivity.
Qed.

Lemma revokeRefreshToken_outcome_witness :
  result (revokeRefreshToken Samples.env_ok "rt-cur" Samples.w0) = Returned tt.
Proof.
  exact (proj1 (proj2 (proj2
    (revokeRefreshToken_outcome Samples.env_ok "rt-cur" Samples.w0))) tt eq_refl).
Defined.

(** ** Registering *)

(** The refresh token a registration stores: the one the provider issued,
    whatever it is, and otherwise the one that was supplied. *)
Definition registered_token (rt : string) (ts : TokenSet) : string :=
  match refresh_token ts with
  | Some t => t
  | None => rt
  end.

(** A registration that returns has created one user with the email of the
    id token, written one (Registration, Success) record for that user,
    stored the refresh token as the only token of the new user, and returns
    that token. *)
Theorem createGoogleSsoUser_success env rt info w toks :
  result (createGoogleSsoUser env rt info w) = Returned toks ->
  let w' := final (createGoogleSsoUser env rt info w) in
  exists ts d,
    googleClient_refresh env rt = Returned (Some ts) /\
    jwt_decode env (id_token ts) = Some d /\
    let u := mkUser (fresh_user_id w) (email (payload d)) [] in
    users w' = users w ++ [u] /\
    auth_log w' =
      auth_log w ++
      [mkEvent (Some (user_id u)) Registration GoogleSSO Success info None None] /\
    refresh_tokens w' =
      refresh_tokens w ++
      [mkRefreshToken (fresh_token_id w) (user_id u) (registered_token rt ts)
         GoogleSSO (now w + REFRESH_TOKEN_LIFETIME env) None true] /\
    toks = mkAuthTokens (jwt_sign env u (ACCESS_TOKEN_EXPIRATION_SECONDS env))
             (Some (registered_token rt ts)) /\
    isEmailVerified (user_id u) w' = email_verified (payload d) /\
    outbox w' = outbox w ++ (if email_verified (payload d) then [] else [user_id u]).
Proof.
  unfold registered_token. unfold_service.
  repeat step; intros H; inversion H; subst; simpl;
    eexists; eexists; (split; [reflexivity|]); (split; [eassumption|]);
    repeat match goal with
           | E : refresh_token _ = _ |- _ => rewrite E; clear E
           | E : email_verified _ = _ |- _ => rewrite E; clear E
           end;
    unfold fresh_token_id, fresh_user_id, isEmailVerified; simpl;
    rewrite ?lookup_insert_eq, ?app_nil_r;
    repeat split; reflexivity.
Qed.

Lemma createGoogleSsoUser_success_witness :
  exists ts d,
    googleClient_refresh Samples.env_rotating "rt-0" = Returned (Some ts) /\
    jwt_decode Samples.env_rotating (id_token ts) = Some d /\
    auth_log (final (createGoogleSsoUser Samples.env_rotating "rt-0" Samples.info0
                       Samples.w_empty)) =
      [mkEvent (Some 1) Registration GoogleSSO Success Samples.info0 None None].
Proof.
  destruct (createGoogleSsoUser_success Samples.env_rotating "rt-0" Samples.info0
              Samples.w_empty
              (mkAuthTokens "jwt-for-ann@example.org" (Some "rt-new")) eq_refl)
    as (ts & d & Hts & Hd & _ & Hlog & _).
  exists ts, d. split; [exact Hts|]. split; [exact Hd|]. exact Hlog.
Defined.

(** A registration has no [catch]: an exception of the provider leaves it as
    it is and nothing is written; an id token that cannot be decoded makes it
    throw before anything is written; and however it ends, it writes no
    Failure record. *)
Theorem createGoogleSsoUser_failure env rt info w :
  let run := createGoogleSsoUser env rt info w in
  (forall e, googleClient_refresh env rt = Thrown e ->
     run = (Thrown e, record_call (Refresh rt) w)) /\
  (forall ts, googleClient_refresh env rt = Returned (Some ts) ->
     jwt_decode env (id_token ts) = None ->
     run = (Thrown TypeError, record_call (Refresh rt) w)) /\
  (auth_log (final run) = auth_log w \/
   exists uid, auth_log (final run) =
     auth_log w ++ [mkEvent (Some uid) Registration GoogleSSO Success info None None]).
Proof.
  cbv zeta. split; [|split].
  - intros e He. unfold_service. rewrite He. reflexivity.
  - intros ts Hts Hd. unfold_service. rewrite Hts. simpl. rewrite Hd. reflexivity.
  - unfold_service. repeat step; eauto.
Qed.

Lemma createGoogleSsoUser_failure_witness :
  createGoogleSsoUser Samples.env_down "rt-0" Samples.info0 Samples.w_empty =
    (Thrown (JsError "ECONNREFUSED"), record_call (Refresh "rt-0") Samples.w_empty).
Proof.
  exact (proj1 (createGoogleSsoUser_failure Samples.env_down "rt-0" Samples.info0
                  Samples.w_empty) (JsError "ECONNREFUSED") eq_refl).
Defined.

(** ** Edge cases of a login *)

(** A login of an email nobody is registered with fails with
    GoogleAuthFailedException and leaves one Failure record without a user
    id; nothing else is written. *)
Theorem googleLogin_unknown_email env g rt info w :
  raised env Log_getUserByEmail = None ->
  raised env Log_logFailure = None ->
  getUserByEmail (gu_email g) w = None ->
  googleLogin env g rt info w =
    (Thrown GoogleAuthFailedException,
     logAuthenticationEvent (failure_event false None info) w).
Proof.
  intros H1 H2 Hu. unfold_service. rewrite H1. simpl. rewrite Hu. simpl.
  rewrite H2. reflexivity.
Qed.

Lemma googleLogin_unknown_email_witness :
  googleLogin Samples.env_ok (Samples.ann_google true) "rt-1" Samples.info0
    Samples.w_empty =
    (Thrown GoogleAuthFailedException,
     logAuthenticationEvent (failure_event false None Samples.info0) Samples.w_empty).
Proof.
  exact (googleLogin_unknown_email Samples.env_ok (Samples.ann_google true) "rt-1"
           Samples.info0 Samples.w_empty eq_refl eq_refl eq_refl).
Defined.

Lemma in_map_deactivate_other uid l r :
  In r l -> rt_user_id r <> uid -> In r (map (deactivate_row uid) l).
Proof.
  intros Hin Hne. apply in_map_iff. exists r. split; [|exact Hin].
  apply deactivate_row_other, Hne.
Qed.

(** A login changes refresh tokens only when a refresh token is supplied and
    the user is found, and then only those of that user. *)
Theorem googleLogin_touches_own_tokens_only env g rt info w :
  let l' := refresh_tokens (final (googleLogin env g rt info w)) in
  (rt = "" -> l' = refresh_tokens w) /\
  (getUserByEmail (gu_email g) w = None -> l' = refresh_tokens w) /\
  (forall u r, getUserByEmail (gu_email g) w = Some u ->
     In r (refresh_tokens w) -> rt_user_id r <> user_id u -> In r l').
Proof.
  cbv zeta. split; [|split].
  - intros ->. unfold_service. repeat step; reflexivity.
  - intros Hu. unfold_service. rewrite Hu. simpl. repeat step; reflexivity.
  - intros u r Hu Hin Hne.
    destruct (googleLogin_tokens env g rt info w) as [-> | (u' & Hu' & [-> | ->])].
    + exact Hin.
    + rewrite Hu in Hu'. inversion Hu'; subst u'.
      apply in_map_deactivate_other; assumption.
    + rewrite Hu in Hu'. inversion Hu'; subst u'.
      apply in_or_app. left. apply in_map_deactivate_other; assumption.
Qed.

Lemma googleLogin_touches_own_tokens_only_witness :
  refresh_tokens (final (googleLogin Samples.env_ok (Samples.ann_google true) ""
                           Samples.info0 Samples.w0)) =
    refresh_tokens Samples.w0.
Proof.
  exact (proj1 (googleLogin_touches_own_tokens_only Samples.env_ok
                  (Samples.ann_google true) "" Samples.info0 Samples.w0) eq_refl).
Defined.

(** The only exceptions that leave [googleLogin]: the generic
    GoogleAuthFailedException, also when minting the access token throws
    after the Success record, and, when writing the Failure record itself
    throws, the exception of that write. *)
Theorem googleLogin_exception_boundary env g rt info w e :
  result (googleLogin env g rt info w) = Thrown e ->
  match raised env Log_logFailure with
  | None => e = GoogleAuthFailedException
  | Some e' => e = e'
  end.
Proof.
  unfold_service.
  destruct (raised env Log_logFailure) as [e'|] eqn:HF;
    repeat step; congruence.
Qed.

Lemma googleLogin_exception_boundary_witness :
  match raised Samples.env_jwt_fails Log_logFailure with
  | None => GoogleAuthFailedException = GoogleAuthFailedException
  | Some e' => GoogleAuthFailedException = e'
  end.
Proof.
  exact (googleLogin_exception_boundary Samples.env_jwt_fails
           (Samples.ann_google false) "rt-1" Samples.info0 Samples.w0
           GoogleAuthFailedException eq_refl).
Defined.

(** ** Edge cases of a refresh *)

(** When the provider answers but the email of the id token belongs to no
    user, the refresh fails with UserNotFoundException after the token has
    been stamped as used: no token is deactivated and none is added. *)
Theorem refresh_user_not_found env tok uid w ts :
  now w <= expires_on tok ->
  googleClient_refresh env (token tok) = Returned (Some ts) ->
  truthy (access_token ts) = true ->
  raised env Ref_updateLastUsedOn = None ->
  raised env Ref_getUserByEmail = None ->
  getUserByEmail (decoded_email env ts) w = None ->
  refreshGoogleAccessToken env tok uid w =
    (Thrown UserNotFoundException,
     updateLastUsedOn (token tok) (record_call (Refresh (token tok)) w)).
Proof.
  intros Hlive Hts Hat H1 H2 Hu. apply Z.ltb_ge in Hlive.
  unfold decoded_email in Hu. unfold_service.
  rewrite Hlive. simpl. rewrite Hts. simpl. rewrite Hat. simpl.
  rewrite H1. simpl. rewrite H2. simpl.
  unfold getUserByEmail in *. simpl. rewrite Hu. reflexivity.
Qed.

Lemma refresh_user_not_found_witness :
  result (refreshGoogleAccessToken Samples.env_ok Samples.row_cur 1
            (record_call (Revoke "x") Samples.w_empty)) =
    Thrown UserNotFoundException.
Proof.
  rewrite (refresh_user_not_found Samples.env_ok Samples.row_cur 1
             (record_call (Revoke "x") Samples.w_empty) Samples.ts_plain
             ltac:(vm_compute; discriminate) eq_refl eq_refl eq_refl eq_refl eq_refl).
  reflexivity.
Defined.

(** The [userId] argument of a refresh only matters when the token has
    expired: a rotation deactivates the tokens of the user the id token
    names, so when that is another user, the tokens of [userId] stay as
    active as they were. *)
Theorem refresh_rotation_follows_id_token env tok uid w toks ts u :
  result (refreshGoogleAccessToken env tok uid w) = Returned toks ->
  googleClient_refresh env (token tok) = Returned (Some ts) ->
  getUserByEmail (decoded_email env ts) w = Some u ->
  user_id u <> uid ->
  active_tokens uid (final (refreshGoogleAccessToken env tok uid w)) =
    map (touch_row (token tok) (now w)) (active_tokens uid w).
Proof.
  intros Hr Hts Hu Hne. revert Hr. unfold decoded_email in Hu.
  unfold_service. rewrite Hts. simpl.
  repeat step; intros H; try discriminate H;
    match goal with
    | E : getUserByEmail _ _ = Some ?u' |- _ =>
        match u' with
        | u => fail 1
        | _ => assert (u' = u)
                 by (unfold getUserByEmail in *; simpl in *; congruence);
               subst u'
        end
    end;
    unfold active_tokens; simpl;
    rewrite ?active_rows_other by (congruence || reflexivity);
    apply active_rows_touch.
Qed.

Lemma refresh_rotation_follows_id_token_witness :
  active_tokens 2 (final (refreshGoogleAccessToken Samples.env_rotating
                            Samples.row_bob 2 Samples.w_two)) =
    [mkRefreshToken 3 2 "rt-bob" GoogleSSO 5000 (Some 1000) true].
Proof.
  rewrite (refresh_rotation_follows_id_token Samples.env_rotating Samples.row_bob 2
             Samples.w_two (mkAuthTokens "jwt-for-ann@example.org" (Some "rt-new"))
             Samples.ts_rotating Samples.ann eq_refl eq_refl eq_refl
             ltac:(vm_compute; discriminate)).
  reflexivity.
Defined.

(** ** Rows are only ever added *)

(** What never changes in a stored refresh token. *)
Definition row_identity (r : RefreshToken) :=
  (rt_id r, rt_user_id r, token r, rt_method r, expires_on r).

(** A row as a flow may leave it: the same token of the same user, and
    active only if it was active. *)
Definition evolves (r r' : RefreshToken) : Prop :=
  row_identity r = row_identity r' /\ (is_active r' = true -> is_active r = true).

Lemma evolves_refl r : evolves r r.
Proof. split; auto. Qed.

Lemma evolves_deactivate uid r : evolves r (deactivate_row uid r).
Proof.
  unfold evolves, row_identity, deactivate_row.
  destruct (rt_user_id r =? uid); simpl; split; auto. intros H; discriminate H.
Qed.

Lemma evolves_touch t n r : evolves r (touch_row t n r).
Proof.
  unfold evolves, row_identity, touch_row.
  destruct (token r =? t)%string; simpl; split; auto.
Qed.

Lemma evolves_trans r1 r2 r3 : evolves r1 r2 -> evolves r2 r3 -> evolves r1 r3.
Proof. intros [A B] [C D]. split; [congruence|auto]. Qed.

Lemma evolves_map f l :
  (forall r, evolves r (f r)) -> Forall2 evolves l (map f l).
Proof. intros Hf. induction l; simpl; constructor; auto. Qed.

(** The rows of [l'] start with the rows of [l], each possibly stamped or
    deactivated, and go on with new rows. *)
Definition grows (l l' : list RefreshToken) : Prop :=
  exists old new, l' = old ++ new /\ Forall2 evolves l old.

Lemma grows_map f l new :
  (forall r, evolves r (f r)) -> grows l (map f l ++ new).
Proof. intros Hf. exists (map f l), new. split; [reflexivity|apply evolves_map, Hf]. Qed.

Lemma grows_refl l : grows l l.
Proof.
  exists l, []. split; [rewrite app_nil_r; reflexivity|].
  induction l; constructor; auto using evolves_refl.
Qed.

Lemma grows_map_nil f l :
  (forall r, evolves r (f r)) -> grows l (map f l).
Proof. intros Hf. rewrite <- (app_nil_r (map f l)). apply grows_map, Hf. Qed.

(** No flow of the service removes a stored refresh token, hands it to
    another user, changes its token or expiry, or turns an inactive token
    back on: whatever the run does and however it ends, the old rows are
    still there, at most stamped or deactivated, and new rows come after
    them. *)
Theorem refresh_tokens_only_grow env w :
  (forall g rt info,
      grows (refresh_tokens w) (refresh_tokens (final (googleLogin env g rt info w)))) /\
  (forall rt info,
      grows (refresh_tokens w)
        (refresh_tokens (final (createGoogleSsoUser env rt info w)))) /\
  (forall tok uid,
      grows (refresh_tokens w)
        (refresh_tokens (final (refreshGoogleAccessToken env tok uid w)))) /\
  (forall t,
      refresh_tokens (final (revokeRefreshToken env t w)) = refresh_tokens w).
Proof.
  split; [|split; [|split]].
  - intros g rt info.
    destruct (googleLogin_tokens env g rt info w) as [-> | (u & _ & [-> | ->])].
    + apply grows_refl.
    + apply grows_map_nil, evolves_deactivate.
    + apply grows_map, evolves_deactivate.
  - intros rt info. unfold_service.
    repeat step; first [apply grows_refl | rewrite <- (map_id (refresh_tokens w)) at 2;
                                           apply grows_map, evolves_refl].
  - intros tok uid. unfold_service.
    repeat step;
      first [ apply grows_refl
            | apply grows_map_nil, evolves_deactivate
            | apply grows_map_nil, evolves_touch
            | rewrite map_map;
              first [ apply grows_map | apply grows_map_nil ];
              intros r; eapply evolves_trans;
              [apply evolves_touch | apply evolves_deactivate] ].
  - intros t. unfold_service.
    destruct (googleClient_revoke env t) as [[]|e]; simpl; [reflexivity|].
    destruct e; reflexivity.
Qed.

End GoogleSsoFacts.

(** * Properties of the email service *)
Section EmailFacts.
Import EmailService.
Local Open Scope list_scope.

(** What a mail to [to] does with SES: it hands over one command, addressed
    to [to] alone and sent from the configured sender, returns when SES
    accepts it and throws [failure] when SES throws anything. *)
Definition mail_contract (env : Env) (to : string) (sent : list SendEmailCommand)
    (run : Outcome unit * list SendEmailCommand) (failure : Exn) : Prop :=
  exists command,
    final run = sent ++ [command] /\
    ToAddresses command = [to] /\
    Source command = config_get env (AWS_SES_SENDER_EMAIL env) /\
    (ses_send env command = Returned tt -> result run = Returned tt) /\
    (forall e, ses_send env command = Thrown e -> result run = Thrown failure).

Lemma guarded_send_contract env to sent command failure :
  ToAddresses command = [to] ->
  Source command = config_get env (AWS_SES_SENDER_EMAIL env) ->
  mail_contract env to sent
    (try_catch (send env command) (fun _ => throw failure) sent) failure.
Proof.
  intros Hto Hsrc. exists command. unfold send, try_catch, throw, result, final.
  destruct (ses_send env command) as [[]|e]; simpl;
    repeat split; auto; intros; discriminate.
Qed.

(** Each of the three mails hands exactly one command to SES, addressed to
    the recipient alone and sent from the configured sender; the call returns
    when SES accepts the command, and an SES failure of any kind leaves it as
    the exception of the mail: VerificationEmailSendingFailed for the
    verification mail, PasswordResetEmailSendingFailed for the two password
    mails. *)
Theorem emails_one_command_one_recipient env to tok sent :
  mail_contract env to sent (sendVerificationEmail env to tok sent)
    VerificationEmailSendingFailedException /\
  mail_contract env to sent (sendPasswordResetEmail env to tok sent)
    PasswordResetEmailSendingFailedException /\
  mail_contract env to sent (sendPasswordResetConfirmationEmail env to sent)
    PasswordResetEmailSendingFailedException.
Proof.
  split; [|split]; apply guarded_send_contract; reflexivity.
Qed.

End EmailFacts.

Lemma emails_one_command_one_recipient_witness :
  result (EmailService.sendVerificationEmail EmailSamples.env_ses_down
            "ann@example.org" "t0k" []) =
    Thrown VerificationEmailSendingFailedException.
Proof.
  destruct (proj1 (emails_one_command_one_recipient EmailSamples.env_ses_down
                     "ann@example.org" "t0k" []))
    as (command & Hc & _ & _ & _ & Hfail).
  apply app_inj_tail in Hc. destruct Hc as [_ <-].
  exact (Hfail (JsError "Throttling") eq_refl).
Defined.

(** * Properties of the effect statistics *)
Section StatisticsFacts.
Import StatisticsEffect.
Local Open Scope list_scope.

Lemma patientRef_some e p :
  patientRef e = Some p -> p_code p <> "" /\ p_patientId p <> 0.
Proof.
  unfold patientRef.
  destruct (code e) as [c|]; [|intros H; discriminate H].
  destruct (patientId e) as [i|]; [|intros H; discriminate H].
  destruct (c =? "")%string eqn:Ec; simpl; [intros H; discriminate H|].
  unfold truthy_number. destruct (i =? 0) eqn:Ei; simpl; intros H; inversion H; subst p.
  simpl. split.
  - apply String.eqb_neq, Ec.
  - apply Z.eqb_neq, Ei.
Qed.

(** Patients leave the use case for customer admins only: for anyone else
    the list is empty and the repository is not even asked for patients; what
    an admin gets are the effects that carry a non-empty code and a non-zero
    patient id. One query goes to the repository per call. *)
Theorem execute_patients_for_admins_only deps input admin sent r :
  result (execute deps input admin sent) = Returned r ->
  (admin = false -> patients r = []) /\
  (forall p, In p (patients r) ->
     admin = true /\ p_code p <> "" /\ p_patientId p <> 0) /\
  exists q effects,
    final (execute deps input admin sent) = sent ++ [q] /\
    includePatients q = admin /\
    getEffects deps q = Returned effects /\
    (admin = true -> patients r = omap patientRef effects).
Proof.
  unfold execute, bind, ret, result, final. simpl.
  destruct (prepareStatisticsContext deps input) as [[customers excluded]|e]; simpl;
    [|intros H; discriminate H].
  match goal with |- context [getEffects deps ?q] => set (query := q) end.
  destruct (getEffects deps query) as [effects|e] eqn:E; simpl;
    [|intros H; discriminate H].
  destruct admin; simpl; intros H; inversion H; subst r; simpl.
  - split; [intros H'; discriminate H'|]. split.
    + intros p Hin. split; [reflexivity|].
      apply list_elem_of_In, list_elem_of_omap in Hin.
      destruct Hin as (e & _ & He). eapply patientRef_some, He.
    + exists query, effects. auto.
  - split; [reflexivity|]. split; [intros p []|].
    exists query, effects. repeat split; auto. intros H'; discriminate H'.
Qed.

Lemma execute_patients_for_admins_only_witness :
  exists q,
    final (execute StatisticsSamples.deps0 StatisticsSamples.input0 false []) = [q] /\
    includePatients q = false.
Proof.
  destruct (execute_patients_for_admins_only StatisticsSamples.deps0
              StatisticsSamples.input0 false []
              (mkStatisticEffect
                 (mkChart ["2024-01"; "2024-02"; "2024-03"]
                    [mkDataset "Recovery Rate" [100; 0; 0];
                     mkDataset "Reliably Improved" [0; 0; 100]]) [])
              eq_refl)
    as (_ & _ & q & effects & Hq & Hi & _).
  exists q. split; [exact Hq|exact Hi].
Defined.

Lemma filter_none {A} (f : A -> bool) l :
  (forall x, In x l -> f x = false) -> List.filter f l = [].
Proof.
  induction l as [|a l IH]; intros H; simpl; [reflexivity|].
  rewrite (H a) by (left; reflexivity). apply IH. intros x Hx. apply H. right. exact Hx.
Qed.

Lemma getEffectsData_no_caseness deps group :
  (forall e, In e group -> caseness e = 0) -> getEffectsData deps group = (0, 0).
Proof.
  intros H. unfold getEffectsData.
  rewrite (filter_none (fun e => truthy_number (caseness e)) group); [reflexivity|].
  intros e He. unfold truthy_number. rewrite (H e He). reflexivity.
Qed.

Lemma effectDataOfPeriod_no_caseness deps effects p :
  (forall e, In e effects -> period e = p -> caseness e = 0) ->
  effectDataOfPeriod deps effects p = None \/
  effectDataOfPeriod deps effects p = Some (0, 0).
Proof.
  intros H. unfold effectDataOfPeriod.
  destruct (List.filter _ effects) as [|e group] eqn:E; [left; reflexivity|].
  right. f_equal. apply getEffectsData_no_caseness.
  intros x Hx. rewrite <- E in Hx. apply List.filter_In in Hx.
  destruct Hx as [Hin Hp]. apply H; [exact Hin|]. apply String.eqb_eq, Hp.
Qed.

Lemma lookup_map {A B} (f : A -> B) (l : list A) (i : nat) :
  map f l !! i = f <$> (l !! i).
Proof.
  revert i. induction l as [|a l IH]; intros [|i]; simpl; auto.
Qed.

(** The chart has one label set, made of the dates of the range, and two
    series with one value for each of those dates; a date on which no effect
    has caseness, in particular a date without effects, counts 0 in both
    series, so nothing is ever divided by zero. *)
Theorem execute_chart_one_value_per_date deps input admin sent r :
  result (execute deps input admin sent) = Returned r ->
  let rangeDates :=
    getDatesForRange deps (periodicity input) (dateFrom input) (dateTo input) in
  exists q effects recovery improved,
    final (execute deps input admin sent) = sent ++ [q] /\
    getEffects deps q = Returned effects /\
    chart r =
      mkChart (formatDatesForChartLabels deps rangeDates (periodicity input))
        [mkDataset "Recovery Rate" recovery; mkDataset "Reliably Improved" improved] /\
    length recovery = length rangeDates /\
    length improved = length rangeDates /\
    (forall i p,
        rangeDates !! i = Some p ->
        (forall e, In e effects -> period e = p -> caseness e = 0) ->
        recovery !! i = Some 0 /\ improved !! i = Some 0).
Proof.
  unfold execute, bind, ret, result, final. simpl.
  destruct (prepareStatisticsContext deps input) as [[customers excluded]|e]; simpl;
    [|intros H; discriminate H].
  match goal with |- context [getEffects deps ?q] => set (query := q) end.
  destruct (getEffects deps query) as [effects|e] eqn:E; simpl;
    [|intros H; discriminate H].
  destruct admin; simpl; intros H; inversion H; subst r; simpl;
    (exists query, effects; eexists; eexists;
     split; [reflexivity|]; split; [exact E|]; split; [reflexivity|];
     split; [apply length_map|]; split; [apply length_map|];
     intros i p Hi Hno; rewrite !lookup_map, Hi; simpl;
     destruct (effectDataOfPeriod_no_caseness deps effects p Hno) as [-> | ->];
     split; reflexivity).
Qed.

Lemma execute_chart_one_value_per_date_witness :
  exists q effects,
    final (execute StatisticsSamples.deps0 StatisticsSamples.input0 true []) = [q] /\
    getEffects StatisticsSamples.deps0 q = Returned effects.
Proof.
  destruct (execute_chart_one_value_per_date StatisticsSamples.deps0
              StatisticsSamples.input0 true []
              (mkStatisticEffect
                 (mkChart ["2024-01"; "2024-02"; "2024-03"]
                    [mkDataset "Recovery Rate" [100; 0; 0];
                     mkDataset "Reliably Improved" [0; 0; 100]])
                 [mkPatientRef "P-7" 7])
              eq_refl)
    as (q & effects & _ & _ & Hq & He & _).
  exists q, effects. split; [exact Hq|exact He].
Defined.

End StatisticsFacts.

(** * Properties of the session middleware *)
Section SessionMiddlewareFacts.
Import SessionMiddleware.
Local Open Scope list_scope.

(** C8: the middleware returns at once, without a fetch and without
    touching a cookie, exactly when there is one user-session cookie and the
    marker cookie [user-<name>] carries its value; in every other case it
    goes on to fetch the logged-in user. *)
Theorem middleware_cache_hit h request :
  let hit := exists c, getUserSessionCookies h request = [c] /\
                       cookies request !! String.append "user-" (name c) = Some (value c) in
  (cookiesHasFetchedActor h request = true <-> hit) /\
  (authenticateUserMiddleware h request = mkRun [] request None <-> hit) /\
  (~ hit -> fetched (authenticateUserMiddleware h request) = [cookieHeader request]).
Proof.
  cbv zeta.
  assert (Hiff : cookiesHasFetchedActor h request = true <->
                 exists c, getUserSessionCookies h request = [c] /\
                   cookies request !! String.append "user-" (name c) = Some (value c)).
  { unfold cookiesHasFetchedActor.
    destruct (getUserSessionCookies h request) as [|c [|c' l]]; simpl.
    - split; [|intros (c & Hc & _); discriminate Hc].
      destruct (negb _); intros H; discriminate H.
    - destruct (bool_decide _) eqn:E.
      + apply bool_decide_eq_true in E. split; [eauto|reflexivity].
      + apply bool_decide_eq_false in E. split; [intros H; discriminate H|].
        intros (d & Hd & Hm). inversion Hd; subst d. contradiction.
    - split; [intros H; discriminate H|intros (d & Hd & _); discriminate Hd]. }
  assert (Hmiss : cookiesHasFetchedActor h request = false ->
                  fetched (authenticateUserMiddleware h request) = [cookieHeader request]).
  { intros Hf. unfold authenticateUserMiddleware. rewrite Hf.
    destruct (fetchLoggedInUserInfo h (cookieHeader request)) as [data [e|]];
      [reflexivity|].
    destruct (present_actor data) as [[actor m]|]; [|reflexivity].
    destruct (setActorCookies h actor m request). reflexivity. }
  split; [exact Hiff|]. split.
  - rewrite <- Hiff. split.
    + intros Hrun. destruct (cookiesHasFetchedActor h request) eqn:E; [reflexivity|].
      specialize (Hmiss eq_refl). rewrite Hrun in Hmiss. discriminate Hmiss.
    + intros Hc. unfold authenticateUserMiddleware. rewrite Hc. reflexivity.
  - intros Hno.
    destruct (cookiesHasFetchedActor h request) eqn:E; [|exact (Hmiss eq_refl)].
    exfalso. apply Hno, Hiff. reflexivity.
Qed.

Lemma middleware_cache_hit_witness :
  authenticateUserMiddleware MiddlewareSamples.h_no_actor MiddlewareSamples.req_hit
    = mkRun [] MiddlewareSamples.req_hit None /\
  fetched (authenticateUserMiddleware MiddlewareSamples.h_no_actor MiddlewareSamples.req_stale)
    = [cookieHeader MiddlewareSamples.req_stale].
Proof.
  split.
  - apply (proj2 (proj1 (proj2
      (middleware_cache_hit MiddlewareSamples.h_no_actor MiddlewareSamples.req_hit)))).
    exists (mkCookie "sid" "s3cr3t"). split; reflexivity.
  - apply (proj2 (proj2
      (middleware_cache_hit MiddlewareSamples.h_no_actor MiddlewareSamples.req_stale))).
    intros (c & Hc & _). vm_compute in Hc. discriminate Hc.
Defined.

(** What the cleared response does to one cookie of the user agent. *)
Lemma apply_clear_lookup jar n :
  apply_cookies clearSessionCookies jar !! n =
  if bool_decide (n = "logged-user" \/ n = "authToken") then None else jar !! n.
Proof.
  unfold apply_cookies, clearSessionCookies. simpl.
  rewrite lookup_merge.
  destruct (decide (n = "authToken")) as [->|Ha].
  - rewrite lookup_insert_eq.
    destruct (jar !! "authToken"); reflexivity.
  - rewrite lookup_insert_ne by congruence.
    destruct (decide (n = "logged-user")) as [->|Hl].
    + rewrite lookup_insert_eq.
      destruct (jar !! "logged-user"); reflexivity.
    + rewrite lookup_insert_ne by congruence. rewrite lookup_empty.
      rewrite bool_decide_eq_false_2 by (intros [?|?]; contradiction).
      destruct (jar !! n); reflexivity.
Qed.

(** C5 (as amended): when the fetch answers without an error and without an
    actor, the middleware returns the response of [clearSessionCookies], which
    deletes the cookies [logged-user] and [authToken] and carries neither
    header; applying it is idempotent and changes nothing for a user agent
    that holds neither cookie. When the fetch fails with an error the
    middleware returns no response and leaves the request as it is. *)
Theorem middleware_clears_session h request :
  cookiesHasFetchedActor h request = false ->
  let run := authenticateUserMiddleware h request in
  let cleared := clearSessionCookies in
  (forall data,
      fetchLoggedInUserInfo h (cookieHeader request) = (data, None) ->
      present_actor data = None ->
      run = mkRun [cookieHeader request] request (Some cleared)) /\
  (forall data e,
      fetchLoggedInUserInfo h (cookieHeader request) = (data, Some e) ->
      run = mkRun [cookieHeader request] request None) /\
  r_cookies cleared !! "logged-user" = Some DeleteCookie /\
  r_cookies cleared !! "authToken" = Some DeleteCookie /\
  r_headers cleared !! "logged-user" = None /\
  r_headers cleared !! "authToken" = None /\
  (forall jar,
      apply_cookies cleared jar !! "logged-user" = None /\
      apply_cookies cleared jar !! "authToken" = None /\
      apply_cookies cleared (apply_cookies cleared jar) = apply_cookies cleared jar) /\
  (forall jar,
      jar !! "logged-user" = None -> jar !! "authToken" = None ->
      apply_cookies cleared jar = jar).
Proof.
  intros Hmiss. cbv zeta. unfold authenticateUserMiddleware. rewrite Hmiss.
  repeat split.
  - intros data Hf Hno. rewrite Hf, Hno. reflexivity.
  - intros data e Hf. rewrite Hf. reflexivity.
  - rewrite apply_clear_lookup. reflexivity.
  - rewrite apply_clear_lookup. reflexivity.
  - apply map_eq. intros n. rewrite !apply_clear_lookup.
    destruct (bool_decide _); reflexivity.
  - intros jar Hl Ha. apply map_eq. intros n. rewrite apply_clear_lookup.
    destruct (bool_decide _) eqn:E; [|reflexivity].
    apply bool_decide_eq_true in E. destruct E as [->| ->]; congruence.
Qed.

Lemma middleware_clears_session_witness :
  authenticateUserMiddleware MiddlewareSamples.h_no_actor MiddlewareSamples.req_stale
    = mkRun [cookieHeader MiddlewareSamples.req_stale] MiddlewareSamples.req_stale
        (Some clearSessionCookies) /\
  apply_cookies clearSessionCookies (∅ : gmap string string) = ∅.
Proof.
  pose proof (middleware_clears_session MiddlewareSamples.h_no_actor
                MiddlewareSamples.req_stale eq_refl) as H.
  split.
  - exact (proj1 H (Some (mkData None)) eq_refl eq_refl).
  - apply (proj2 (proj2 (proj2 (proj2 (proj2 (proj2 (proj2 H))))))); reflexivity.
Defined.

(** C5 as stated fails: when the fetch fails with an error, the middleware
    returns without a response, so neither cookie and neither header is
    cleared. *)
Lemma middleware_fetch_error_clears_nothing :
  let run := authenticateUserMiddleware MiddlewareSamples.h_error
               MiddlewareSamples.req_stale in
  fetched run = ["logged-user=user:en; authToken=tok"%string] /\
  response run = None /\
  request_after run = MiddlewareSamples.req_stale /\
  ~ (exists r, response run = Some r /\
               r_cookies r !! "logged-user" = Some DeleteCookie).
Proof.
  vm_compute. repeat split. intros (r & Hr & _). discriminate Hr.
Qed.

(** * Further properties of the session middleware *)

Lemma marker_name_not_logged_user n : String.append "user-" n <> "logged-user".
Proof. intros H. discriminate H. Qed.

Lemma marker_name_not_authToken n : String.append "user-" n <> "authToken".
Proof. intros H. discriminate H. Qed.

(** What [setActorCookies] leaves on the response and on the request,
    whatever the helpers do. *)
Lemma setActorCookies_sets h actor m request :
  let q := fst (setActorCookies h actor m request) in
  let r := snd (setActorCookies h actor m request) in
  r_cookies r !! "logged-user" =
    Some (SetCookie (Some (stringify h m)) (mkOptions "/" false true lax None)) /\
  r_cookies r !! "authToken" =
    Some (SetCookie (Some (token actor)) (mkOptions "/" false true lax None)) /\
  r_headers r !! "logged-user" = Some (stringify h m) /\
  r_headers r !! "authToken" = Some (token actor) /\
  cookies q = <["logged-user" := stringify h m]> (cookies request) /\
  headers q = headers request /\ pathname q = pathname request.
Proof.
  cbv zeta. unfold setActorCookies. simpl.
  repeat split.
  - rewrite lookup_insert_ne by discriminate. apply lookup_insert_eq.
  - apply lookup_insert_eq.
  - rewrite lookup_insert_ne by discriminate. apply lookup_insert_eq.
  - apply lookup_insert_eq.
Qed.

(** When the fetch answers with an actor, the response of the middleware
    sets the cookies [logged-user] and [authToken] (path [/], readable by
    scripts, secure, same-site lax, no expiry) and carries the same two
    values as headers, and the request goes on with [logged-user] set;
    this holds for any behaviour of the imported helpers. *)
Theorem middleware_sets_actor h request data actor m :
  cookiesHasFetchedActor h request = false ->
  fetchLoggedInUserInfo h (cookieHeader request) = (data, None) ->
  present_actor data = Some (actor, m) ->
  let run := authenticateUserMiddleware h request in
  fetched run = [cookieHeader request] /\
  cookies (request_after run) = <["logged-user" := stringify h m]> (cookies request) /\
  exists r,
    response run = Some r /\
    r_cookies r !! "logged-user" =
      Some (SetCookie (Some (stringify h m)) (mkOptions "/" false true lax None)) /\
    r_cookies r !! "authToken" =
      Some (SetCookie (Some (token actor)) (mkOptions "/" false true lax None)) /\
    r_headers r !! "logged-user" = Some (stringify h m) /\
    r_headers r !! "authToken" = Some (token actor).
Proof.
  intros Hmiss Hf Ha. cbv zeta.
  unfold authenticateUserMiddleware. rewrite Hmiss, Hf, Ha.
  pose proof (setActorCookies_sets h actor m request) as H. cbv zeta in H.
  destruct (setActorCookies h actor m request) as [q r]. simpl in *.
  destruct H as (H1 & H2 & H3 & H4 & H5 & _).
  split; [reflexivity|]. split; [exact H5|].
  exists r. auto.
Qed.

Lemma middleware_sets_actor_witness :
  exists r,
    response (authenticateUserMiddleware MiddlewareSamples.h_user
                MiddlewareSamples.req_new) = Some r /\
    r_headers r !! "authToken" = Some "tok-9".
Proof.
  destruct (middleware_sets_actor MiddlewareSamples.h_user MiddlewareSamples.req_new
              (Some (mkData (Some MiddlewareSamples.dr_strange)))
              MiddlewareSamples.dr_strange
              (User "nb" [("email", "strange@example.org")])
              eq_refl eq_refl eq_refl)
    as (_ & _ & r & Hr & _ & _ & _ & Ht).
  exists r. split; [exact Hr|exact Ht].
Defined.

(** ** The marker cookie *)










(** ** The language redirect *)



End SessionMiddlewareFacts.

(** * Properties of the GraphQL auth context *)
Section AuthContextFacts.
Import AuthContext.
Context (hasOneOfTheRoles : list Role -> list Role -> bool)
        (RolesCustomerAdmin : list Role)
        {ExecutionContext : Type}
        (getContextRequest : ExecutionContext -> ExtendedRequest).

(** C10: a context that [getAuthContext] returns has exactly one of [user]
    and [patient]. Of a request whose [windowId] passes its schema, a request
    with a user gives a context with that user and no patient, even when a
    patient is attached as well; a request with a patient only gives a context
    with the patient and no user; and a request with neither makes
    [getAuthContext] throw. *)
Theorem getAuthContext_one_actor ctx :
  let req := getContextRequest ctx in
  let run := getAuthContext hasOneOfTheRoles RolesCustomerAdmin getContextRequest ctx in
  (forall c, run = Returned c ->
     (user c <> None /\ patient c = None) \/ (user c = None /\ patient c <> None)) /\
  (forall windowId u,
     parse_optional_string (raw_windowId req) = Returned windowId ->
     req_user req = Some u ->
     run = Returned
             (mkContext (getLang (headers req)) windowId (getPathname (headers req))
                (Some (mkAuthUser (roles u) (user_fields u)
                         (hasOneOfTheRoles (roles u) RolesCustomerAdmin)
                         (default "" (req_sessionId req))))
                None)) /\
  (forall windowId p,
     parse_optional_string (raw_windowId req) = Returned windowId ->
     req_user req = None -> req_patient req = Some p ->
     run = Returned
             (mkContext (getLang (headers req)) windowId (getPathname (headers req))
                None (Some p))) /\
  (req_user req = None -> req_patient req = None ->
   run = Thrown (JsError "Either user or patient must be non-null.") \/
   run = Thrown ZodError).
Proof.
  cbv zeta. unfold getAuthContext, getExtendedRequestAuthContext.
  split; [|split; [|split]].
  - intros c.
    destruct (parse_optional_string _); [|intros H; discriminate H].
    destruct (req_user _); simpl.
    + intros H. inversion H; subst c. left. split; [discriminate|reflexivity].
    + destruct (req_patient _); simpl; intros H; inversion H; subst c.
      right. split; [reflexivity|discriminate].
  - intros windowId u Hw Hu. rewrite Hw, Hu. reflexivity.
  - intros windowId p Hw Hu Hp. rewrite Hw, Hu, Hp. reflexivity.
  - intros Hu Hp. rewrite Hu, Hp.
    destruct (parse_optional_string _) as [o|e] eqn:E; [left; reflexivity|].
    right. unfold parse_optional_string in E.
    destruct (raw_windowId _); inversion E; reflexivity.
Qed.

(** * Further properties of the GraphQL auth context *)

(** The accessors built on [getAuthContext], for a request whose [windowId]
    passes its schema: with a user attached, [getContextUser] returns the
    user and [getContextPatient] refuses, even when a patient is attached
    too; with a patient only it is the other way round; with neither, the
    two decorators throw the plain error of [getAuthContext], while
    [getGqlModuleContextUser] answers with UnauthorizedException. *)
Theorem context_accessors ctx windowId :
  let req := getContextRequest ctx in
  let user_of := getContextUser hasOneOfTheRoles RolesCustomerAdmin getContextRequest in
  let patient_of :=
    getContextPatient hasOneOfTheRoles RolesCustomerAdmin getContextRequest in
  let module_user := getGqlModuleContextUser hasOneOfTheRoles RolesCustomerAdmin in
  parse_optional_string (raw_windowId req) = Returned windowId ->
  (forall u, req_user req = Some u ->
     user_of ctx =
       Returned (mkAuthUser (roles u) (user_fields u)
                   (hasOneOfTheRoles (roles u) RolesCustomerAdmin)
                   (default "" (req_sessionId req))) /\
     module_user req = user_of ctx /\
     patient_of ctx = Thrown (UnauthorizedException "Patient is not authenticated")) /\
  (forall p, req_user req = None -> req_patient req = Some p ->
     patient_of ctx = Returned p /\
     user_of ctx = Thrown (UnauthorizedException "User is not authenticated") /\
     module_user req = user_of ctx) /\
  (req_user req = None -> req_patient req = None ->
     user_of ctx = Thrown (JsError "Either user or patient must be non-null.") /\
     patient_of ctx = Thrown (JsError "Either user or patient must be non-null.") /\
     module_user req = Thrown (UnauthorizedException "User is not authenticated")).
Proof.
  cbv zeta. intros Hw.
  unfold getContextUser, getContextPatient, getGqlModuleContextUser, getAuthContext,
    getExtendedRequestAuthContext.
  rewrite Hw. split; [|split].
  - intros u Hu. rewrite Hu. simpl. auto.
  - intros p Hu Hp. rewrite Hu, Hp. simpl. auto.
  - intros Hu Hp. rewrite Hu, Hp. simpl. auto.
Qed.

(** A [windowId] that is neither absent nor a string makes every accessor
    throw the schema error, whoever is attached to the request. *)
Theorem context_rejects_bad_windowId ctx :
  let req := getContextRequest ctx in
  raw_windowId req <> JsUndefined ->
  (forall s, raw_windowId req <> JsString s) ->
  getAuthContext hasOneOfTheRoles RolesCustomerAdmin getContextRequest ctx
    = Thrown ZodError /\
  getContextUser hasOneOfTheRoles RolesCustomerAdmin getContextRequest ctx
    = Thrown ZodError /\
  getContextPatient hasOneOfTheRoles RolesCustomerAdmin getContextRequest ctx
    = Thrown ZodError /\
  getGqlModuleContextUser hasOneOfTheRoles RolesCustomerAdmin req = Thrown ZodError.
Proof.
  cbv zeta. intros Hu Hs.
  unfold getContextUser, getContextPatient, getGqlModuleContextUser, getAuthContext,
    getExtendedRequestAuthContext.
  destruct (raw_windowId (getContextRequest ctx)) as [| |s| |];
    try contradiction; try (exfalso; exact (Hs s eq_refl)); simpl; auto.
Qed.

End AuthContextFacts.

Section HeaderFacts.
Import AuthContext.
Local Open Scope list_scope.

(** The language of a request is [en] or [no]: [en] exactly when the
    [accept-language] header is literally [en], and [no] for every other
    header and when there is none. *)
Theorem getLang_en_or_no (hs : gmap string string) :
  (getLang hs = "en" \/ getLang hs = "no") /\
  (getLang hs = "en" <-> hs !! "accept-language" = Some "en") /\
  (hs !! "accept-language" = None -> getLang hs = "no").
Proof.
  unfold getLang, parse_lang.
  destruct (hs !! "accept-language") as [v|] eqn:E; simpl.
  - destruct (v =? "en")%string eqn:Een.
    + apply String.eqb_eq in Een. subst v.
      split; [left; reflexivity|]. split; [tauto|intros H; discriminate H].
    + apply String.eqb_neq in Een.
      assert (Hno : (if (v =? "no")%string then "no" else "no") = "no")
        by (destruct (v =? "no")%string; reflexivity).
      rewrite Hno. split; [right; reflexivity|].
      split; [|intros H; discriminate H].
      split; [intros H; discriminate H|]. intros H. inversion H. contradiction.
  - split; [right; reflexivity|]. split; [|reflexivity].
    split; intros H; discriminate H.
Qed.

Lemma starts_with_append p s : starts_with p (String.append p s) = true.
Proof.
  induction p as [|a p IH]; [reflexivity|].
  change (String.append (String a p) s) with (String a (String.append p s)).
  simpl. rewrite Ascii.eqb_refl. exact IH.
Qed.

Lemma drop_chars_append p s : drop_chars (String.length p) (String.append p s) = s.
Proof.
  induction p as [|a p IH]; [reflexivity|].
  change (String.append (String a p) s) with (String a (String.append p s)).
  simpl. exact IH.
Qed.

Lemma remove_first_prefix p s : remove_first p (String.append p s) = s.
Proof.
  destruct (String.append p s) eqn:E;
    simpl; rewrite <- E, starts_with_append, drop_chars_append; reflexivity.
Qed.

Lemma remove_first_empty s : remove_first "" s = s.
Proof. destruct s; reflexivity. Qed.

(** The path of the page: the page url without the origin in front of it;
    the whole page url when there is no [origin] header; and the empty
    string when there is no [x-page-url] header. *)
Theorem getPathname_strips_origin (hs : gmap string string) :
  (forall origin path,
      hs !! "origin" = Some origin ->
      hs !! "x-page-url" = Some (String.append origin path) ->
      getPathname hs = path) /\
  (forall url,
      hs !! "origin" = None -> hs !! "x-page-url" = Some url -> getPathname hs = url) /\
  (hs !! "x-page-url" = None -> getPathname hs = "").
Proof.
  unfold getPathname. split; [|split].
  - intros origin path Ho Hp. rewrite Ho, Hp. simpl. apply remove_first_prefix.
  - intros url Ho Hp. rewrite Ho, Hp. simpl. apply remove_first_empty.
  - intros Hp. rewrite Hp. simpl.
    destruct (default "" (hs !! "origin")); reflexivity.
Qed.

End HeaderFacts.

Lemma getAuthContext_one_actor_witness :
  let run := AuthContext.getAuthContext AuthContextSamples.has_role
               AuthContextSamples.admins
               (fun r : AuthContext.ExtendedRequest => r) in
  run AuthContextSamples.req_both =
    Returned (AuthContext.mkContext "en" (Some "w1") "/en/patients"
                (Some (AuthContext.mkAuthUser ["customer-admin"]
                         [("email", "who@example.org")] true "sid=abc"))
                None) /\
  run AuthContextSamples.req_patient_only =
    Returned (AuthContext.mkContext "no" None "" None
                (Some AuthContextSamples.patient7)) /\
  (run AuthContextSamples.req_nobody =
     Thrown (JsError "Either user or patient must be non-null.") \/
   run AuthContextSamples.req_nobody = Thrown ZodError).
Proof.
  split; [|split].
  - exact (proj1 (proj2
      (getAuthContext_one_actor AuthContextSamples.has_role AuthContextSamples.admins
         (fun r => r) AuthContextSamples.req_both))
      (Some "w1") AuthContextSamples.dr_who eq_refl eq_refl).
  - exact (proj1 (proj2 (proj2
      (getAuthContext_one_actor AuthContextSamples.has_role AuthContextSamples.admins
         (fun r => r) AuthContextSamples.req_patient_only)))
      None AuthContextSamples.patient7 eq_refl eq_refl eq_refl).
  - exact (proj2 (proj2 (proj2
      (getAuthContext_one_actor AuthContextSamples.has_role AuthContextSamples.admins
         (fun r => r) AuthContextSamples.req_nobody)))
      eq_refl eq_refl).
Defined.

Lemma context_accessors_witness :
  AuthContext.getContextPatient AuthContextSamples.has_role AuthContextSamples.admins
    (fun r : AuthContext.ExtendedRequest => r) AuthContextSamples.req_both =
    Thrown (UnauthorizedException "Patient is not authenticated") /\
  AuthContext.getContextPatient AuthContextSamples.has_role AuthContextSamples.admins
    (fun r : AuthContext.ExtendedRequest => r) AuthContextSamples.req_patient_only =
    Returned AuthContextSamples.patient7 /\
  AuthContext.getGqlModuleContextUser AuthContextSamples.has_role
    AuthContextSamples.admins AuthContextSamples.req_nobody =
    Thrown (UnauthorizedException "User is not authenticated").
Proof.
  split; [|split].
  - exact (proj2 (proj2 (proj1
      (context_accessors AuthContextSamples.has_role AuthContextSamples.admins
         (fun r => r) AuthContextSamples.req_both (Some "w1") eq_refl)
      AuthContextSamples.dr_who eq_refl))).
  - exact (proj1 (proj1 (proj2
      (context_accessors AuthContextSamples.has_role AuthContextSamples.admins
         (fun r => r) AuthContextSamples.req_patient_only None eq_refl))
      AuthContextSamples.patient7 eq_refl eq_refl)).
  - exact (proj2 (proj2 (proj2 (proj2
      (context_accessors AuthContextSamples.has_role AuthContextSamples.admins
         (fun r => r) AuthContextSamples.req_nobody None eq_refl))
      eq_refl eq_refl))).
Defined.

Lemma context_rejects_bad_windowId_witness :
  AuthContext.getContextUser AuthContextSamples.has_role AuthContextSamples.admins
    (fun r : AuthContext.ExtendedRequest => r) AuthContextSamples.req_bad_window =
    Thrown ZodError.
Proof.
  exact (proj1 (proj2
    (context_rejects_bad_windowId AuthContextSamples.has_role AuthContextSamples.admins
       (fun r => r) AuthContextSamples.req_bad_window
       ltac:(vm_compute; discriminate) ltac:(intros s; vm_compute; discriminate)))).
Defined.

Lemma getLang_en_or_no_witness :
  AuthContext.getLang (∅ : gmap string string) = "no" /\
  AuthContext.getLang ({[ "accept-language" := "en" ]} : gmap string string) = "en".
Proof.
  split.
  - exact (proj2 (proj2 (getLang_en_or_no ∅)) eq_refl).
  - exact (proj2 (proj1 (proj2 (getLang_en_or_no {[ "accept-language" := "en" ]})))
             eq_refl).
Defined.

Lemma getPathname_strips_origin_witness :
  AuthContext.getPathname (AuthContext.headers AuthContextSamples.req_both) =
    "/en/patients".
Proof.
  exact (proj1 (getPathname_strips_origin
                  (AuthContext.headers AuthContextSamples.req_both))
           "https://app.example.org" "/en/patients" eq_refl eq_refl).
Defined.
